(** * Devlink: external statistics aggregation and fallback synthesis

    A shallow embedding of the two Express routers of the repository
    (the LeetCode router and the GitHub router, both stored in
    [client/src/components/dashboard/GithubStats.js] after the React
    component) and the properties of their handlers. *)

From Stdlib Require Import String Ascii NArith ZArith List Bool Lia Permutation Sorted.
From Stdlib Require Import Floats.SpecFloat.
Import ListNotations.
Local Open Scope Z_scope.

(** ** JavaScript strings

    A JavaScript string is a sequence of UTF-16 code units;
    [charCodeAt] reads one of them.  String literals of the source are
    written with [lit]. *)

Definition jsstring := list N.

Fixpoint lit (s : string) : jsstring :=
  match s with
  | EmptyString => []
  | String c r => N_of_ascii c :: lit r
  end.

Fixpoint jsstring_eqb (a b : jsstring) : bool :=
  match a, b with
  | [], [] => true
  | x :: a', y :: b' => (x =? y)%N && jsstring_eqb a' b'
  | _, _ => false
  end.

(** [String(n)] for an integer [n]: decimal digits, most significant
    first, with a leading minus sign for a negative one. *)
Fixpoint digits_fuel (fuel : nat) (n : Z) (acc : jsstring) : jsstring :=
  match fuel with
  | O => acc
  | S f =>
      let acc' := Z.to_N (48 + n mod 10) :: acc in
      if n / 10 =? 0 then acc' else digits_fuel f (n / 10) acc'
  end.

Definition numberToString (n : Z) : jsstring :=
  if n <? 0
  then lit "-" ++ digits_fuel (S (Z.to_nat (Z.log2 (- n)))) (- n) []
  else digits_fuel (S (Z.to_nat (Z.log2 n))) n [].

(** [pad w n]: the decimal digits of a natural number, zero-padded on
    the left to at least [w] characters ([padStart(w, "0")]). *)
Definition pad (w : nat) (n : Z) : jsstring :=
  let d := numberToString n in
  repeat 48%N (w - length d) ++ d.

(** [s.replace(from, to)] with a one-character string pattern: only
    the first occurrence is replaced. *)
Fixpoint replace_first (from : N) (to : jsstring) (s : jsstring) : jsstring :=
  match s with
  | [] => []
  | c :: r => if (c =? from)%N then to ++ r else c :: replace_first from to r
  end.

(** [s.charAt(0)] and [s.slice(1)]. *)
Definition charAt0 (s : jsstring) : jsstring := firstn 1 s.
Definition slice1 (s : jsstring) : jsstring := skipn 1 s.

(** [s.startsWith(p)], and the pieces of [s] around the first
    occurrence of a separator: [s.includes(sep)] holds when
    [after_first] finds one, and [s.split(sep)[1]] is what lies between
    the first occurrence and the next. *)
Fixpoint starts_with (p s : jsstring) : bool :=
  match p, s with
  | [], _ => true
  | x :: p', y :: s' => (x =? y)%N && starts_with p' s'
  | _ :: _, [] => false
  end.

Fixpoint after_first (sep s : jsstring) : option jsstring :=
  if starts_with sep s then Some (skipn (length sep) s)
  else match s with
       | [] => None
       | _ :: r => after_first sep r
       end.

Fixpoint before_first (sep s : jsstring) : jsstring :=
  if starts_with sep s then []
  else match s with
       | [] => []
       | c :: r => c :: before_first sep r
       end.

(** [s.replace] of the pattern [/\/$/] by the empty string: one
    trailing slash is dropped. *)
Definition strip_trailing_slash (s : jsstring) : jsstring :=
  match rev s with
  | 47%N :: r => rev r
  | _ => s
  end.

(** ** Numbers

    JavaScript numbers are IEEE 754 binary64 values.  The integers the
    handlers count with stay far below 2^53, where binary64 arithmetic
    on them is exact, and are embedded as [Z].  The one place where a
    fraction is formed, the selector [random], is embedded with the
    binary64 operations of [SpecFloat]. *)

Definition prec : Z := 53.
Definition emax : Z := 1024.

Definition double := spec_float.

Definition ofZ (z : Z) : double := binary_normalize prec emax z 0 false.
Definition fdiv : double -> double -> double := SFdiv prec emax.
Definition fmul : double -> double -> double := SFmul prec emax.

(** [Math.floor] of a finite double, as an integer. *)
Definition floor (x : double) : Z :=
  match x with
  | S754_finite s m e =>
      let v := if s then Z.neg m else Z.pos m in
      if 0 <=? e then v * 2 ^ e else v / 2 ^ (- e)
  | _ => 0
  end.

(** ** The username-derived seed and its selector

    [seed] is the sum of [charCodeAt(0)] over the characters of the
    username, and
    [random(min, max) = Math.floor(((seed % 1000) / 1000) * (max - min + 1)) + min]. *)

Definition seed (username : jsstring) : Z :=
  fold_left (fun acc char => acc + Z.of_N char) username 0.

Definition random_of_seed (sd : Z) (min max : Z) : Z :=
  floor (fmul (fdiv (ofZ (Z.rem sd 1000)) (ofZ 1000)) (ofZ (max - min + 1))) + min.

Definition random (username : jsstring) (min max : Z) : Z :=
  random_of_seed (seed username) min max.

(** ** Dates

    A [Date] is a time value: milliseconds since the epoch.  The system
    clock only yields time values inside the range on which
    [toISOString] is defined. *)

Definition msPerDay : Z := 24 * 60 * 60 * 1000.

(** Year, month and day of a day number counted from 1970-01-01
    (proleptic Gregorian calendar). *)
Definition civil_from_days (days : Z) : Z * Z * Z :=
  let z := days + 719468 in
  let era := z / 146097 in
  let doe := z - era * 146097 in
  let yoe := (doe - doe / 1460 + doe / 36524 - doe / 146096) / 365 in
  let doy := doe - (365 * yoe + yoe / 4 - yoe / 100) in
  let mp := (5 * doy + 2) / 153 in
  let d := doy - (153 * mp + 2) / 5 + 1 in
  let m := if mp <? 10 then mp + 3 else mp - 9 in
  let y := yoe + era * 400 + (if m <=? 2 then 1 else 0) in
  (y, m, d).

Definition isoYear (y : Z) : jsstring :=
  if (0 <=? y) && (y <=? 9999) then pad 4 y
  else if y <? 0 then lit "-" ++ pad 6 (- y)
  else lit "+" ++ pad 6 y.

(** [new Date(t).toISOString()] *)
Definition toISOString (t : Z) : jsstring :=
  let '(y, m, d) := civil_from_days (t / msPerDay) in
  let ms := t mod msPerDay in
  isoYear y ++ lit "-" ++ pad 2 m ++ lit "-" ++ pad 2 d ++ lit "T"
    ++ pad 2 (ms / 3600000) ++ lit ":" ++ pad 2 (ms / 60000 mod 60) ++ lit ":"
    ++ pad 2 (ms / 1000 mod 60) ++ lit "." ++ pad 3 (ms mod 1000) ++ lit "Z".

(** ** JavaScript values

    The values that travel through the handlers unchanged and the
    objects the handlers build.  An object is the list of its own
    properties in insertion order.  [VNum] carries an integer-valued
    number, [VDouble] a number with a fractional part. *)

#[warnings="-register-all"]
Inductive value : Type :=
  | VUndefined
  | VNull
  | VBool (b : bool)
  | VNum (n : Z)
  | VDouble (x : double)
  | VStr (s : jsstring)
  | VArr (xs : list value)
  | VObj (fields : list (jsstring * value)).

Definition truthy (v : value) : bool :=
  match v with
  | VUndefined | VNull => false
  | VBool b => b
  | VNum n => negb (n =? 0)
  | VDouble x => match x with S754_zero _ | S754_nan => false | _ => true end
  | VStr s => match s with [] => false | _ => true end
  | VArr _ | VObj _ => true
  end.

(** [a || b] *)
Definition or_else (a b : value) : value := if truthy a then a else b.

(** [o?.f] when [o] is absent ([null] or [undefined]) or an object
    read through [f]. *)
Definition opt_get {A : Type} (o : option A) (f : A -> value) : value :=
  match o with Some a => f a | None => VUndefined end.

(** [o?.f] when the property itself may be absent. *)
Definition opt_bind {A B : Type} (o : option A) (f : A -> option B) : option B :=
  match o with Some a => f a | None => None end.

(** Own property names of an object, in order ([Object.keys]). *)
Definition keys (v : value) : list jsstring :=
  match v with VObj fs => map fst fs | _ => [] end.

(** Property read [v.k] on a non-null value. *)
Fixpoint assoc (k : jsstring) (fs : list (jsstring * value)) : value :=
  match fs with
  | [] => VUndefined
  | (k', v) :: r => if jsstring_eqb k k' then v else assoc k r
  end.

Definition get (k : string) (v : value) : value :=
  match v with VObj fs => assoc (lit k) fs | _ => VUndefined end.

(** The property names [JSON.stringify] (hence [res.json]) writes for
    an object: a property whose value is [undefined] is left out. *)
Definition json_keys (v : value) : list jsstring :=
  match v with
  | VObj fs =>
      map fst (filter (fun kv => match snd kv with VUndefined => false | _ => true end) fs)
  | _ => []
  end.

(** [arr.slice(0, end)] *)
Definition slice0 {A : Type} (e : Z) (l : list A) : list A :=
  if e <? 0 then firstn (Z.to_nat (Z.of_nat (length l) + e)) l
  else firstn (Z.to_nat e) l.

(** [arr[i]] *)
Definition index {A : Type} (l : list A) (i : Z) : option A :=
  if i <? 0 then None else nth_error l (Z.to_nat i).

(** [arr.sort(cmp)].  ECMAScript requires the sort to be stable; for a
    comparator that is a consistent ordering the result is the one
    stable arrangement, which insertion from the right computes: an
    element moves behind exactly those it compares greater than. *)
Section Sort.
Context {A : Type} (cmp : A -> A -> Z).

Fixpoint sort_insert (x : A) (l : list A) : list A :=
  match l with
  | [] => [x]
  | y :: r => if 0 <? cmp x y then y :: sort_insert x r else x :: y :: r
  end.

Fixpoint sort (l : list A) : list A :=
  match l with
  | [] => []
  | x :: r => sort_insert x (sort r)
  end.
End Sort.

(** ** Requests, failures and the world outside the handlers *)

Inductive http_method : Type := GET | POST.

(** The [data] argument of the one [axios.post] of the source. *)
Record graphql : Type := {
  query : jsstring;
  variables_username : jsstring
}.

(** An outbound request as axios receives it.  [timeout = None] is a
    call whose config has no [timeout] key: axios then waits without
    bound. *)
Record request : Type := {
  method : http_method;
  url : jsstring;
  data : option graphql;
  headers : list (jsstring * jsstring);
  timeout : option Z
}.

(** Why an axios promise rejects. *)
Inductive failure : Type :=
  | Timeout
  | HttpError (status : Z)
  | NetworkError.

(** What a handler can catch: a rejected axios or database promise, or
    the [TypeError] raised by reading a property of a body that is not
    what the handler dereferences. *)
Inductive exn : Type :=
  | AxiosError (f : failure) (response_message : value)
  | DbError
  | TypeError.

(** A response body: of the shape the handler reads, or malformed,
    that is, one on which the handler's reads raise [TypeError]. *)
Inductive body (A : Type) : Type :=
  | WellFormed (a : A)
  | Malformed.
Arguments WellFormed {A} a.
Arguments Malformed {A}.

Inductive outcome (A : Type) : Type :=
  | Fulfilled (a : A)
  | Rejected (e : exn).
Arguments Fulfilled {A} a.
Arguments Rejected {A} e.

(** *** Upstream payloads *)

(** [GET /users/:username] of the GitHub REST API; a property the
    payload lacks reads as [VUndefined]. *)
Record gh_user : Type := {
  login : value;
  name : value;
  avatar_url : value;
  bio : value;
  company : value;
  blog : value;
  location : value;
  followers : value;
  following : value;
  public_repos : value;
  public_gists : value
}.

(** One element of [GET /users/:username/repos].  [language] is [null]
    ([None]) or a string. *)
Record gh_repo : Type := {
  repo_name : value;
  description : value;
  stargazers_count : Z;
  forks_count : value;
  html_url : value;
  language : option jsstring;
  updated_at : value
}.

(** The LeetCode GraphQL answer ([response.data.data]); every level
    the handler reaches through [?.] may be absent. *)
Record lc_count : Type := { difficulty : jsstring; count : Z }.
Record lc_tag : Type := { tagName : value; problemsSolved : Z }.
Record lc_profile : Type := { ranking : value; reputation : value; realName : value }.
Record lc_submitStats : Type := { acSubmissionNum : option (list lc_count) }.
Record lc_tagProblemCounts : Type := {
  advanced : option (list lc_tag);
  intermediate : option (list lc_tag);
  fundamental : option (list lc_tag)
}.
Record lc_user : Type := {
  lc_username : value;
  submitStats : option lc_submitStats;
  profile : option lc_profile;
  badges : value;
  tagProblemCounts : option lc_tagProblemCounts;
  problemsSolvedBeatsStats : value
}.
Record lc_badge : Type := { badge_name : value }.
Record lc_contest : Type := {
  attendedContestsCount : value;
  rating : value;
  globalRanking : value;
  badge : option lc_badge
}.
Record lc_data : Type := {
  matchedUser : option lc_user;
  userContestRanking : option lc_contest;
  recentSubmissionList : value
}.

(** *** Stored profiles ([models/Profile], read only) *)

Record platform_binding : Type := { pb_name : jsstring; pb_username : jsstring }.
Record profile_doc : Type := { platforms : list platform_binding }.

(** *** The world

    Everything a handler reads from outside: the upstream services,
    the server itself reached over HTTP, the profile store, the
    environment and the clock ([clock k] is the [k]-th reading). *)
Record world : Type := {
  github_users : request -> outcome (body gh_user);
  github_repos : request -> outcome (body (list gh_repo));
  leetcode_graphql : request -> outcome (body lc_data);
  own_server : request -> outcome value;
  Profile_findOne : jsstring -> outcome (option profile_doc);
  GITHUB_TOKEN : option jsstring;
  clock : nat -> Z
}.

(** ** Handler computations

    A handler runs in a world and threads the requests it has issued,
    the console lines it has written and the number of clock readings
    it has taken; it ends with a value or with a thrown exception. *)

Inductive console_line : Type :=
  | Log (text : jsstring)
  | LogFailure (text : jsstring) (e : exn).

Record state : Type := {
  issued : list request;
  console : list console_line;
  ticks : nat
}.

Definition start : state := {| issued := []; console := []; ticks := O |}.

Inductive result (A : Type) : Type :=
  | Ok (a : A)
  | Throw (e : exn).
Arguments Ok {A} a.
Arguments Throw {A} e.

Definition M (A : Type) : Type := world -> state -> result A * state.

Definition ret {A : Type} (a : A) : M A := fun _ s => (Ok a, s).
Definition throw {A : Type} (e : exn) : M A := fun _ s => (Throw e, s).

Definition bind {A B : Type} (m : M A) (k : A -> M B) : M B :=
  fun w s =>
    match m w s with
    | (Ok a, s') => k a w s'
    | (Throw e, s') => (Throw e, s')
    end.

Definition try_catch {A : Type} (m : M A) (h : exn -> M A) : M A :=
  fun w s =>
    match m w s with
    | (Ok a, s') => (Ok a, s')
    | (Throw e, s') => h e w s'
    end.

Declare Scope js_scope.
Delimit Scope js_scope with js.
Notation "x <- m ;; k" := (bind m (fun x => k))
  (at level 61, m at next level, right associativity) : js_scope.
Notation "m ;; k" := (bind m (fun _ => k))
  (at level 61, right associativity) : js_scope.
Notation "'try' m 'catch' x => h" := (try_catch m (fun x => h))
  (at level 62, x name, m at level 61, h at level 61) : js_scope.
Local Open Scope js_scope.

Definition console_log (text : jsstring) : M unit :=
  fun _ s => (Ok tt, {| issued := issued s; console := console s ++ [Log text]; ticks := ticks s |}).

Definition console_failure (text : jsstring) (e : exn) : M unit :=
  fun _ s =>
    (Ok tt, {| issued := issued s; console := console s ++ [LogFailure text e]; ticks := ticks s |}).

(** [Date.now()] and [new Date()]: one reading of the clock. *)
Definition Date_now : M Z :=
  fun w s =>
    (Ok (clock w (ticks s)),
     {| issued := issued s; console := console s; ticks := S (ticks s) |}).

(** [await axios(...)]: the request is recorded, the world answers. *)
Definition axios {A : Type} (service : world -> request -> outcome A) (r : request) : M A :=
  fun w s =>
    let s' := {| issued := issued s ++ [r]; console := console s; ticks := ticks s |} in
    match service w r with
    | Fulfilled a => (Ok a, s')
    | Rejected e => (Throw e, s')
    end.

(** The first property read on a response body. *)
Definition read {A : Type} (b : body A) : M A :=
  match b with
  | WellFormed a => ret a
  | Malformed => throw TypeError
  end.

(** [await Profile.findOne({ user: id })] *)
Definition findOne (id : jsstring) : M (option profile_doc) :=
  fun w s =>
    match Profile_findOne w id with
    | Fulfilled p => (Ok p, s)
    | Rejected e => (Throw e, s)
    end.

Fixpoint mapM {A B : Type} (f : A -> M B) (l : list A) : M (list B) :=
  match l with
  | [] => ret []
  | x :: r => y <- f x ;; ys <- mapM f r ;; ret (y :: ys)
  end.

(** ** Express responses: [res.status(code).json(payload)] *)

Record response : Type := { status : Z; json : value }.

Definition success (payload : value) : value :=
  VObj [(lit "success", VBool true); (lit "data", payload)].

Definition error (message : value) : value :=
  VObj [(lit "success", VBool false); (lit "error", message)].

(** ** The LeetCode router *)

Module LeetCode.

(** The GraphQL document both handlers send. *)
Definition query_text : jsstring := lit "
      query userProfile($username: String!) {
        matchedUser(username: $username) {
          username
          submitStats: submitStatsGlobal {
            acSubmissionNum {
              difficulty
              count
              submissions
            }
          }
          profile {
            ranking
            reputation
            starRating
            realName
          }
          badges {
            id
            displayName
            icon
          }
          tagProblemCounts {
            advanced {
              tagName
              problemsSolved
            }
            intermediate {
              tagName
              problemsSolved
            }
            fundamental {
              tagName
              problemsSolved
            }
          }
          problemsSolvedBeatsStats {
            difficulty
            percentage
          }
        }
        userContestRanking(username: $username) {
          attendedContestsCount
          rating
          globalRanking
          totalParticipants
          topPercentage
          badge {
            name
          }
        }
        recentSubmissionList(username: $username, limit: 15) {
          id
          title
          titleSlug
          timestamp
          statusDisplay
          lang
        }
      }
    ".

Definition graphql_request (username : jsstring) : request :=
  {| method := POST;
     url := lit "https://leetcode.com/graphql";
     data := Some {| query := query_text; variables_username := username |};
     headers := [];
     timeout := None |}.

(** [userData.matchedUser?.submitStats?.acSubmissionNum] *)
Definition acSubmissions (userData : lc_data) : option (list lc_count) :=
  opt_bind (opt_bind (matchedUser userData) submitStats) acSubmissionNum.

(** [acSubmissionNum?.find((item) => item.difficulty === label)?.count || 0] *)
Definition solved (label : string) (breakdown : option (list lc_count)) : value :=
  or_else
    (opt_get
       (opt_bind breakdown (find (fun item => jsstring_eqb (difficulty item) (lit label))))
       (fun item => VNum (count item)))
    (VNum 0).

(** [userData.matchedUser?.tagProblemCounts?.tier || []] *)
Definition tier (userData : lc_data)
    (t : lc_tagProblemCounts -> option (list lc_tag)) : list lc_tag :=
  match opt_bind (opt_bind (matchedUser userData) tagProblemCounts) t with
  | Some l => l
  | None => []
  end.

(** [[...advanced, ...intermediate, ...fundamental]
      .sort((a, b) => b.problemsSolved - a.problemsSolved).slice(0, 5)] *)
Definition mergeTags (adv inter fund : list lc_tag) : list lc_tag :=
  slice0 5 (sort (fun a b => problemsSolved b - problemsSolved a) (adv ++ inter ++ fund)).

Definition topTags (userData : lc_data) : list lc_tag :=
  mergeTags (tier userData advanced) (tier userData intermediate) (tier userData fundamental).

(** A tag object as it came from upstream. *)
Definition tag_value (t : lc_tag) : value :=
  VObj [(lit "tagName", tagName t); (lit "problemsSolved", VNum (problemsSolved t))].

(** The [leetcodeStats] object literal. *)
Definition leetcodeStats (userData : lc_data) : value :=
  let user := matchedUser userData in
  let contest := userContestRanking userData in
  VObj [
    (lit "username", opt_get user lc_username);
    (lit "ranking", opt_get (opt_bind user profile) ranking);
    (lit "reputation", opt_get (opt_bind user profile) reputation);
    (lit "realName", opt_get (opt_bind user profile) realName);
    (lit "totalSolved", solved "All" (acSubmissions userData));
    (lit "easySolved", solved "Easy" (acSubmissions userData));
    (lit "mediumSolved", solved "Medium" (acSubmissions userData));
    (lit "hardSolved", solved "Hard" (acSubmissions userData));
    (lit "contestAttended", or_else (opt_get contest attendedContestsCount) (VNum 0));
    (lit "contestRating", or_else (opt_get contest rating) (VNum 0));
    (lit "contestGlobalRanking", or_else (opt_get contest globalRanking) (VNum 0));
    (lit "contestBadge", or_else (opt_get (opt_bind contest badge) badge_name) VNull);
    (lit "badges", or_else (opt_get user badges) (VArr []));
    (lit "beatsPercentage", or_else (opt_get user problemsSolvedBeatsStats) (VArr []));
    (lit "recentSubmissions", or_else (recentSubmissionList userData) (VArr []));
    (lit "topTags", VArr (map tag_value (topTags userData)))
  ].

(** The part the two handlers share word for word: the POST, the
    formatting and the 200 response. *)
Definition fetch_and_format (username : jsstring) : M response :=
  resp <- axios leetcode_graphql (graphql_request username) ;;
  userData <- read resp ;;
  ret {| status := 200; json := success (leetcodeStats userData) |}.

Definition on_error (err : exn) : M response :=
  console_failure (lit "LeetCode API Error:") err ;;
  ret {| status := 500; json := error (VStr (lit "Error fetching LeetCode stats")) |}.

(** [router.get("/stats/:username", ...)] *)
Definition stats_by_username (username : jsstring) : M response :=
  try fetch_and_format username catch err => on_error err.

(** [router.get("/stats", protect, ...)]; [user_id] is [req.user.id]. *)
Definition stats_by_profile (user_id : jsstring) : M response :=
  try
    (doc <- findOne user_id ;;
     match doc with
     | None => ret {| status := 404; json := error (VStr (lit "Profile not found")) |}
     | Some doc =>
         match find (fun platform => jsstring_eqb (pb_name platform) (lit "LeetCode"))
                    (platforms doc) with
         | None =>
             ret {| status := 404; json := error (VStr (lit "LeetCode profile not found")) |}
         | Some leetcodePlatform => fetch_and_format (pb_username leetcodePlatform)
         end
     end)
  catch err => on_error err.

End LeetCode.

(** ** The GitHub router *)

Module GitHub.

(** A number read back from a property; the handlers read only
    properties they or the typed payload filled with integers. *)
Definition number_of (v : value) : Z :=
  match v with VNum n => n | _ => 0 end.

(** *** Normalisation of the real payload *)

(** [repos.reduce((acc, repo) => acc + repo.stargazers_count, 0)] *)
Definition totalStars (repos : list gh_repo) : Z :=
  fold_left (fun acc repo => acc + stargazers_count repo) repos 0.

(** [languages[k] = (languages[k] || 0) + 1] on an object used as a
    map; a new key goes last.  (Language names are neither
    array-index-like nor names of [Object.prototype].) *)
Fixpoint bump (k : jsstring) (languages : list (jsstring * Z)) : list (jsstring * Z) :=
  match languages with
  | [] => [(k, 1)]
  | (k', c) :: r =>
      if jsstring_eqb k k' then (k', c + 1) :: r else (k', c) :: bump k r
  end.

(** The [repos.forEach] loop. *)
Definition countLanguages (repos : list gh_repo) : list (jsstring * Z) :=
  fold_left
    (fun languages repo =>
       match language repo with
       | Some (c :: l) => bump (c :: l) languages
       | _ => languages
       end)
    repos [].

(** [Object.entries(languages).map(([name, count]) => ({ name, count }))
      .sort((a, b) => b.count - a.count).slice(0, 5)] *)
Definition languageStats (repos : list gh_repo) : list value :=
  slice0 5
    (sort (fun a b => number_of (get "count" b) - number_of (get "count" a))
       (map (fun entry => VObj [(lit "name", VStr (fst entry)); (lit "count", VNum (snd entry))])
          (countLanguages repos))).

Definition nullable (o : option jsstring) : value :=
  match o with Some s => VStr s | None => VNull end.

(** [repos.sort((a, b) => b.stargazers_count - a.stargazers_count)
      .slice(0, 5).map((repo) => ({ ... }))] *)
Definition realTopRepos (repos : list gh_repo) : list value :=
  map
    (fun repo =>
       VObj [
         (lit "name", repo_name repo);
         (lit "description", description repo);
         (lit "stars", VNum (stargazers_count repo));
         (lit "forks", forks_count repo);
         (lit "url", html_url repo);
         (lit "language", nullable (language repo));
         (lit "updatedAt", updated_at repo)
       ])
    (slice0 5 (sort (fun a b => stargazers_count b - stargazers_count a) repos)).

(** The [githubStats] object literal of the [try] block. *)
Definition realStats (userData : gh_user) (repos : list gh_repo) (now : Z) : value :=
  VObj [
    (lit "username", login userData);
    (lit "name", name userData);
    (lit "avatarUrl", avatar_url userData);
    (lit "bio", bio userData);
    (lit "company", company userData);
    (lit "blog", blog userData);
    (lit "location", location userData);
    (lit "followers", followers userData);
    (lit "following", following userData);
    (lit "publicRepos", public_repos userData);
    (lit "publicGists", public_gists userData);
    (lit "totalStars", VNum (totalStars repos));
    (lit "languages", VArr (languageStats repos));
    (lit "topRepos", VArr (realTopRepos repos));
    (lit "dataSource", VStr (lit "GitHub API"));
    (lit "lastUpdated", VStr (toISOString now))
  ].

Definition api_headers (token : option jsstring) : list (jsstring * jsstring) :=
  [(lit "Accept", lit "application/vnd.github.v3+json"); (lit "User-Agent", lit "DevLink-App")]
    ++ match token with
       | Some (c :: t) => [(lit "Authorization", lit "token " ++ c :: t)]
       | _ => []
       end.

Definition user_request (token : option jsstring) (username : jsstring) : request :=
  {| method := GET;
     url := lit "https://api.github.com/users/" ++ username;
     data := None;
     headers := api_headers token;
     timeout := Some 5000 |}.

Definition repos_request (token : option jsstring) (username : jsstring) : request :=
  {| method := GET;
     url := lit "https://api.github.com/users/" ++ username
              ++ lit "/repos?per_page=100&sort=updated";
     data := None;
     headers := api_headers token;
     timeout := Some 5000 |}.

(** The inner [try] block. *)
Definition fetchReal (username : jsstring) : M value :=
  fun w =>
    (userResponse <- axios github_users (user_request (GITHUB_TOKEN w) username) ;;
     reposResponse <- axios github_repos (repos_request (GITHUB_TOKEN w) username) ;;
     repos <- read reposResponse ;;
     userData <- read userResponse ;;
     now <- Date_now ;;
     ret (realStats userData repos now)) w.

(** *** Synthesis of the substitute record *)

Section Synthesis.
(** [String.prototype.toUpperCase], which follows the Unicode case
    mappings of the JavaScript runtime. *)
Variable toUpperCase : jsstring -> jsstring.

Variable username : jsstring.

Local Abbreviation random := (random username).

Definition languages : list jsstring :=
  map lit ["JavaScript"; "Python"; "Java"; "TypeScript"; "C++"; "Go"; "Rust"; "PHP"]%string.

Definition selectedLanguages : list value :=
  map (fun lang => VObj [(lit "name", VStr lang); (lit "count", VNum (random 1 15))])
    (slice0 (random 3 6) languages).

Definition repoNames : list jsstring :=
  map lit [
    "awesome-project"; "web-app"; "api-server"; "mobile-app"; "data-analysis";
    "machine-learning"; "portfolio-website"; "chat-application"; "e-commerce";
    "blog-platform"; "task-manager"; "weather-app"; "social-media"; "game-engine"
  ]%string.

(** The object literal of the callback of
    [repoNames.slice(...).map(...)], [now] being its [Date.now()]. *)
Definition mockRepoAt (name : jsstring) (now : Z) : value :=
  VObj [
    (lit "name", VStr (name ++ lit "-" ++ numberToString (random 1 99)));
    (lit "description",
      VStr (lit "A " ++ replace_first 45%N (lit " ") name
              ++ lit " built with modern technologies"));
    (lit "stars", VNum (random 0 150));
    (lit "forks", VNum (random 0 50));
    (lit "url", VStr (lit "https://github.com/" ++ username ++ lit "/" ++ name));
    (lit "language",
      or_else
        (opt_get
           (index selectedLanguages (random 0 (Z.of_nat (length selectedLanguages) - 1)))
           (get "name"))
        (VStr (lit "JavaScript")));
    (lit "updatedAt", VStr (toISOString (now - random 1 90 * 24 * 60 * 60 * 1000)))
  ].

Definition mockRepo (name : jsstring) : M value :=
  now <- Date_now ;;
  ret (mockRepoAt name now).

Definition mockTopRepos : M (list value) :=
  mapM mockRepo (slice0 (random 3 8) repoNames).

Definition locations : list jsstring :=
  map lit ["San Francisco"; "New York"; "London"; "Berlin"; "Tokyo"]%string.

(** The [githubStats] object literal of the [catch] block, [now]
    being its [new Date()]. *)
Definition mockStatsAt (topRepos : list value) (now : Z) : value :=
  VObj [
    (lit "username", VStr username);
    (lit "name", VStr (toUpperCase (charAt0 username) ++ slice1 username));
    (lit "avatarUrl", VStr (lit "https://github.com/" ++ username ++ lit ".png"));
    (lit "bio", VStr (lit "Software developer passionate about coding and open source"));
    (lit "company", if truthy (VNum (random 0 1)) then VStr (lit "Tech Company") else VNull);
    (lit "blog",
      if truthy (VNum (random 0 1))
      then VStr (lit "https://" ++ username ++ lit ".dev") else VNull);
    (lit "location", opt_get (index locations (random 0 4)) VStr);
    (lit "followers", VNum (random 10 500));
    (lit "following", VNum (random 20 200));
    (lit "publicRepos", VNum (random 5 50));
    (lit "publicGists", VNum (random 0 20));
    (lit "totalStars",
      VNum (fold_left (fun acc repo => acc + number_of (get "stars" repo)) topRepos 0));
    (lit "languages", VArr selectedLanguages);
    (lit "topRepos", VArr topRepos);
    (lit "dataSource", VStr (lit "Mock Data (GitHub API unavailable)"));
    (lit "lastUpdated", VStr (toISOString now))
  ].

(** The [catch] block after its console line. *)
Definition mockStats : M value :=
  topRepos <- mockTopRepos ;;
  now <- Date_now ;;
  ret (mockStatsAt topRepos now).

(** [router.get("/stats/:username", ...)] *)
Definition stats_by_username : M response :=
  try
    (console_log (lit "Fetching GitHub stats for " ++ username) ;;
     githubStats <-
       (try fetchReal username
        catch apiError =>
          (console_failure (lit "GitHub API failed, using mock data:") apiError ;;
           mockStats)) ;;
     ret {| status := 200; json := success githubStats |})
  catch err =>
    (console_failure (lit "GitHub API Error:") err ;;
     ret {| status := 500; json := error (VStr (lit "Error fetching GitHub stats")) |}).
End Synthesis.

(** [err.response?.data?.message] *)
Definition response_message_of (err : exn) : value :=
  match err with
  | AxiosError _ message => message
  | _ => VUndefined
  end.

(** The username stored in the binding, or what follows
    [github.com/] when a profile URL was stored. *)
Definition bound_username (stored : jsstring) : jsstring :=
  match after_first (lit "github.com/") stored with
  | Some rest => strip_trailing_slash (before_first (lit "github.com/") rest)
  | None => stored
  end.

Definition forward_request (protocol host username : jsstring) : request :=
  {| method := GET;
     url := protocol ++ lit "://" ++ host ++ lit "/api/github/stats/" ++ username;
     data := None;
     headers := [];
     timeout := None |}.

(** [router.get("/stats", protect, ...)]; [protocol] and [host] are
    [req.protocol] and [req.get("host")], [user_id] is [req.user.id]. *)
Definition stats_by_profile (protocol host user_id : jsstring) : M response :=
  try
    (doc <- findOne user_id ;;
     match doc with
     | None => ret {| status := 404; json := error (VStr (lit "Profile not found")) |}
     | Some doc =>
         match find (fun platform => jsstring_eqb (pb_name platform) (lit "GitHub"))
                    (platforms doc) with
         | None =>
             ret {| status := 404; json := error (VStr (lit "GitHub profile not found")) |}
         | Some githubPlatform =>
             forwarded <- axios own_server
                            (forward_request protocol host
                               (bound_username (pb_username githubPlatform))) ;;
             ret {| status := 200; json := forwarded |}
         end
     end)
  catch err =>
    (console_failure (lit "GitHub API Error:") err ;;
     ret {| status := 500;
            json := error (or_else (response_message_of err)
                             (VStr (lit "Error fetching GitHub stats"))) |}).

End GitHub.

(** ** The two lookups of every platform *)

Inductive platform : Type := OnGitHub | OnLeetCode.

Definition platform_name (p : platform) : jsstring :=
  match p with
  | OnGitHub => lit "GitHub"
  | OnLeetCode => lit "LeetCode"
  end.

(** An incoming request, as far as the handlers read it. *)
Record incoming : Type := {
  req_protocol : jsstring;
  req_host : jsstring;
  req_user_id : jsstring
}.

Section Lookups.
Variable toUpperCase : jsstring -> jsstring.

(** [GET /api/<platform>/stats/:username] *)
Definition getByUsername (p : platform) (username : jsstring) : M response :=
  match p with
  | OnGitHub => GitHub.stats_by_username toUpperCase username
  | OnLeetCode => LeetCode.stats_by_username username
  end.

(** [GET /api/<platform>/stats], behind [protect]. *)
Definition getByProfile (p : platform) (req : incoming) : M response :=
  match p with
  | OnGitHub => GitHub.stats_by_profile (req_protocol req) (req_host req) (req_user_id req)
  | OnLeetCode => LeetCode.stats_by_profile (req_user_id req)
  end.
End Lookups.

(** The case mapping on usernames written in ASCII. *)
Definition asciiUpper (s : jsstring) : jsstring :=
  map (fun c => if (97 <=? c)%N && (c <=? 122)%N then (c - 32)%N else c) s.

(** A world in which every upstream call times out, nobody has a
    profile, no token is configured and the clock stands at [t]. *)
Definition unreachable_world (t : Z) : world :=
  {| github_users := fun _ => Rejected (AxiosError Timeout VUndefined);
     github_repos := fun _ => Rejected (AxiosError Timeout VUndefined);
     leetcode_graphql := fun _ => Rejected (AxiosError Timeout VUndefined);
     own_server := fun _ => Rejected (AxiosError Timeout VUndefined);
     Profile_findOne := fun _ => Fulfilled None;
     GITHUB_TOKEN := None;
     clock := fun _ => t |}.

(** ** Notions the properties are stated with *)

(** The sum of a list of integers. *)
Fixpoint sum (l : list Z) : Z :=
  match l with
  | [] => 0
  | x :: r => x + sum r
  end.


(** [sorted] is [l] arranged by non-increasing [key], entries of equal
    key keeping the order they have in [l]. *)
Definition stable_descending {A : Type} (key : A -> Z) (l sorted : list A) : Prop :=
  Permutation l sorted
  /\ StronglySorted (fun a b => key a >= key b) sorted
  /\ forall k, filter (fun a => key a =? k) sorted = filter (fun a => key a =? k) l.

(** The upstream service answers every call of the username lookup
    with a body the handler can read. *)
Definition upstream_ok (p : platform) (username : jsstring) (w : world) : bool :=
  match p with
  | OnGitHub =>
      match github_users w (GitHub.user_request (GITHUB_TOKEN w) username),
            github_repos w (GitHub.repos_request (GITHUB_TOKEN w) username) with
      | Fulfilled (WellFormed _), Fulfilled (WellFormed _) => true
      | _, _ => false
      end
  | OnLeetCode =>
      match leetcode_graphql w (LeetCode.graphql_request username) with
      | Fulfilled (WellFormed _) => true
      | _ => false
      end
  end.

(** The profile store holds no binding of the user for the platform:
    no profile at all, or a profile without that platform. *)
Definition no_binding (p : platform) (user_id : jsstring) (w : world) : bool :=
  match Profile_findOne w user_id with
  | Fulfilled None => true
  | Fulfilled (Some doc) =>
      match find (fun b => jsstring_eqb (pb_name b) (platform_name p)) (platforms doc) with
      | None => true
      | Some _ => false
      end
  | Rejected _ => false
  end.

Definition not_found_message (p : platform) (user_id : jsstring) (w : world) : jsstring :=
  match Profile_findOne w user_id with
  | Fulfilled (Some _) => platform_name p ++ lit " profile not found"
  | _ => lit "Profile not found"
  end.

(** The elements of an array-valued property. *)
Definition elements (k : string) (v : value) : list value :=
  match get k v with VArr l => l | _ => [] end.

(** A record without its time stamps: [lastUpdated] and the
    [updatedAt] of every entry of [topRepos]. *)
Definition without (k : string) (v : value) : value :=
  match v with
  | VObj fs => VObj (filter (fun kv => negb (jsstring_eqb (fst kv) (lit k))) fs)
  | _ => v
  end.

Definition timeless (v : value) : value :=
  match without "lastUpdated" v with
  | VObj fs =>
      VObj (map (fun kv =>
                   if jsstring_eqb (fst kv) (lit "topRepos")
                   then (fst kv,
                         match snd kv with
                         | VArr l => VArr (map (without "updatedAt") l)
                         | other => other
                         end)
                   else kv) fs)
  | other => other
  end.

(** The requests a computation adds to those issued before it. *)
Definition requests_of {A : Type} (m : M A) (w : world) (s : state) : list request :=
  skipn (length (issued s)) (issued (snd (m w s))).

(** The synthesized record as a function of the username and of the
    clock readings taken while it is built: [times k] is the [k]-th
    of them. *)
Fixpoint repos_at (username : jsstring) (names : list jsstring) (times : nat -> Z)
    : list value :=
  match names with
  | [] => []
  | name :: rest =>
      GitHub.mockRepoAt username name (times O)
        :: repos_at username rest (fun k => times (S k))
  end.

Definition synthesized (toUpperCase : jsstring -> jsstring) (username : jsstring)
    (times : nat -> Z) : value :=
  let names := slice0 (random username 3 8) GitHub.repoNames in
  GitHub.mockStatsAt toUpperCase username (repos_at username names times)
    (times (length names)).

(** The clock readings a computation started in state [s] will take. *)
Definition readings (w : world) (s : state) : nat -> Z :=
  fun k => clock w (ticks s + k).

(** The selector stays within its bounds [min] and [max] for each of
    the 1000 values [seed % 1000] can take. *)
Definition selector_in_range (min max : Z) : bool :=
  forallb
    (fun n => let v := random_of_seed (Z.of_nat n) min max in (min <=? v) && (v <=? max))
    (seq 0 1000).

(** A world like [w] in which the GitHub profile call is rejected. *)
Definition without_profile (w : world) (e : exn) : world :=
  {| github_users := fun _ => Rejected e;
     github_repos := github_repos w;
     leetcode_graphql := leetcode_graphql w;
     own_server := own_server w;
     Profile_findOne := Profile_findOne w;
     GITHUB_TOKEN := GITHUB_TOKEN w;
     clock := clock w |}.

(** *** Sample data *)

Definition absent_user : gh_user :=
  {| login := VUndefined; name := VUndefined; avatar_url := VUndefined; bio := VUndefined;
     company := VUndefined; blog := VUndefined; location := VUndefined;
     followers := VUndefined; following := VUndefined; public_repos := VUndefined;
     public_gists := VUndefined |}.

Definition octocat : gh_user :=
  {| login := VStr (lit "octocat"); name := VStr (lit "The Octocat");
     avatar_url := VStr (lit "https://avatars.githubusercontent.com/u/583231");
     bio := VNull; company := VStr (lit "@github"); blog := VStr (lit "https://github.blog");
     location := VStr (lit "San Francisco"); followers := VNum 9000; following := VNum 9;
     public_repos := VNum 8; public_gists := VNum 8 |}.

Definition repo_with (title : string) (stars : Z) (lang : option jsstring) : gh_repo :=
  {| repo_name := VStr (lit title); description := VNull; stargazers_count := stars;
     forks_count := VNum 0; html_url := VStr (lit "https://github.com/octocat/" ++ lit title);
     language := lang; updated_at := VStr (lit "2024-01-01T00:00:00Z") |}.

Definition three_repos : list gh_repo :=
  [repo_with "a" 5 (Some (lit "Ruby")); repo_with "b" 0 None; repo_with "c" 12 (Some (lit "Ruby"))].

(** A world in which GitHub answers with the sample data, the repos
    call failing when [repos_fail] is set. *)
Definition github_world (repos_fail : bool) (t : Z) : world :=
  {| github_users := fun _ => Fulfilled (WellFormed octocat);
     github_repos := fun _ =>
       if repos_fail then Rejected (AxiosError (HttpError 403) VUndefined)
       else Fulfilled (WellFormed three_repos);
     leetcode_graphql := fun _ => Rejected (AxiosError Timeout VUndefined);
     own_server := fun _ => Rejected (AxiosError Timeout VUndefined);
     Profile_findOne := fun _ => Fulfilled (Some {| platforms := [] |});
     GITHUB_TOKEN := None;
     clock := fun _ => t |}.


Definition tag (title : string) (n : Z) : lc_tag :=
  {| tagName := VStr (lit title); problemsSolved := n |}.

Definition leetcode_user (breakdown : list lc_count) (adv inter fund : list lc_tag) : lc_data :=
  {| matchedUser := Some
       {| lc_username := VStr (lit "alice");
          submitStats := Some {| acSubmissionNum := Some breakdown |};
          profile := None;
          badges := VUndefined;
          tagProblemCounts := Some
            {| advanced := Some adv; intermediate := Some inter; fundamental := Some fund |};
          problemsSolvedBeatsStats := VUndefined |};
     userContestRanking := None;
     recentSubmissionList := VUndefined |}.

(** *** Notions for the language histogram and the top lists *)

(** The number of repositories whose [language] is the string [k]. *)
Definition occurrences (k : jsstring) (repos : list gh_repo) : Z :=
  Z.of_nat
    (length
       (filter (fun repo =>
                  match language repo with
                  | Some l => jsstring_eqb k l
                  | None => false
                  end) repos)).

(** The count an object used as a map holds for [k], 0 without one. *)
Fixpoint lookup (k : jsstring) (m : list (jsstring * Z)) : Z :=
  match m with
  | [] => 0
  | (k', c) :: r => if jsstring_eqb k k' then c else lookup k r
  end.

(** The [stars] of the entries of a record's [topRepos]. *)
Definition stars_of (record : value) : list Z :=
  map (fun entry => GitHub.number_of (get "stars" entry)) (elements "topRepos" record).

(** *** Notions for the synthesized record *)

(** [v] is an integer between [lo] and [hi]. *)
Definition in_range (lo hi : Z) (v : value) : Prop :=
  exists n, v = VNum n /\ lo <= n <= hi.

(** A check that holds for each of the 1000 values [seed % 1000] can
    take. *)
Definition for_all_seeds (check : Z -> bool) : bool :=
  forallb (fun n => check (Z.of_nat n)) (seq 0 1000).

(** [random(0, 1)] is 0 below 500 and 1 from 500 on. *)
Definition coin_check (r : Z) : bool :=
  random_of_seed r 0 1 =? (if r <? 500 then 0 else 1).

(** The index [random(0, selectedLanguages.length - 1)] falls inside
    [selectedLanguages]. *)
Definition language_index_check (r : Z) : bool :=
  let len := Z.of_nat (length (slice0 (random_of_seed r 3 6) GitHub.languages)) in
  let i := random_of_seed r 0 (len - 1) in
  (0 <=? i) && (i <? len).

(** *** Notions for the profile lookups *)

(** The body the server sends for [GET /api/github/stats/<username>]. *)
Definition username_route_body (toUpperCase : jsstring -> jsstring) (username : jsstring)
    (w : world) (s : state) : value :=
  match fst (GitHub.stats_by_username toUpperCase username w s) with
  | Ok r => json r
  | Throw _ => VUndefined
  end.

(** [b] is the binding [platforms.find] returns for the platform
    name: the first one that carries it. *)
Definition first_binding (label : jsstring) (doc : profile_doc) (b : platform_binding) : Prop :=
  exists before after,
    platforms doc = before ++ b :: after
    /\ pb_name b = label
    /\ forall x, In x before -> pb_name x <> label.

(** A profile store with one user, who stored the GitHub profile URL
    [https://github.com/octocat/] and the LeetCode username [alice],
    on a server that reaches itself. *)
Definition octocat_profile : profile_doc :=
  {| platforms :=
       [{| pb_name := lit "Medium"; pb_username := lit "octo" |};
        {| pb_name := lit "GitHub"; pb_username := lit "https://github.com/octocat/" |};
        {| pb_name := lit "LeetCode"; pb_username := lit "alice" |}] |}.

Definition profile_world (t : Z) : world :=
  {| github_users := fun _ => Rejected (AxiosError Timeout VUndefined);
     github_repos := fun _ => Rejected (AxiosError Timeout VUndefined);
     leetcode_graphql := fun _ => Rejected (AxiosError (HttpError 429) VUndefined);
     own_server := fun r =>
       Fulfilled (username_route_body asciiUpper (lit "octocat") (unreachable_world t) start);
     Profile_findOne := fun _ => Fulfilled (Some octocat_profile);
     GITHUB_TOKEN := None;
     clock := fun _ => t |}.

Definition sample_request : incoming :=
  {| req_protocol := lit "https"; req_host := lit "devlink.example";
     req_user_id := lit "64f1c0ffee" |}.

(** [config.headers[name]] of a request. *)
Fixpoint header_of (name : jsstring) (hs : list (jsstring * jsstring)) : option jsstring :=
  match hs with
  | [] => None
  | (k, v) :: r => if jsstring_eqb name k then Some v else header_of name r
  end.

Definition header (name : string) (r : request) : option jsstring :=
  header_of (lit name) (headers r).

(** The fields of the LeetCode record that the handler fills with a
    default when upstream gives nothing. *)
Definition leetcode_defaulted : list jsstring :=
  map lit ["totalSolved"; "easySolved"; "mediumSolved"; "hardSolved"; "contestAttended";
           "contestRating"; "contestGlobalRanking"; "contestBadge"; "badges";
           "beatsPercentage"; "recentSubmissions"; "topTags"]%string.

(** The LeetCode answer for a username nobody has. *)
Definition nobody : lc_data :=
  {| matchedUser := None; userContestRanking := None; recentSubmissionList := VArr [] |}.

(** ** The dashboard panels

    The React components [GithubStats] (first part of
    [GithubStats.js]) and [LeetcodeStats] run the same effect and make
    the same choice of what to render; they differ by the platform
    name, the route they call and their two messages. *)

Module Client.

Record panel : Type := {
  platform_label : jsstring;
  route : jsstring;
  load_failure : jsstring;
  connect_failure : jsstring
}.

Definition GithubStats : panel :=
  {| platform_label := lit "GitHub";
     route := lit "/api/github/stats/";
     load_failure := lit "Failed to load GitHub stats";
     connect_failure := lit "Error connecting to GitHub API" |}.

Definition LeetcodeStats : panel :=
  {| platform_label := lit "LeetCode";
     route := lit "/api/leetcode/stats/";
     load_failure := lit "Failed to load LeetCode stats";
     connect_failure := lit "Error connecting to LeetCode API" |}.

(** What the component takes from [ProfileContext]: the statistics
    the context already holds ([githubStats] or [leetcodeStats], null
    when it has none), its [loading] flag and the profile. *)
Record context : Type := {
  cachedStats : value;
  loading : bool;
  profile : option profile_doc
}.

(** The three [useState] cells, and the lines written with
    [console.error]. *)
Record ui : Type := {
  isLoading : bool;
  error : value;
  stats : value;
  errors_logged : list exn
}.

Definition initial : ui :=
  {| isLoading := false; error := VNull; stats := VNull; errors_logged := [] |}.

(** [await axios.get(url)] in the browser: [response.data], or a
    rejection. *)
Definition api : Type := jsstring -> outcome value.

(** [fetchGitHubStats] / [fetchLeetCodeStats], run to its end. *)
Definition fetchStats (p : panel) (ctx : context) (server : api) (st : ui) : ui :=
  match profile ctx with
  | None => st
  | Some doc =>
      match find (fun b => jsstring_eqb (pb_name b) (platform_label p)) (platforms doc) with
      | None => st
      | Some binding =>
          match server (route p ++ pb_username binding) with
          | Fulfilled data =>
              if truthy data && truthy (get "success" data)
              then {| isLoading := false; error := VNull; stats := get "data" data;
                      errors_logged := errors_logged st |}
              else {| isLoading := false; error := VStr (load_failure p); stats := stats st;
                      errors_logged := errors_logged st |}
          | Rejected err =>
              {| isLoading := false; error := VStr (connect_failure p); stats := stats st;
                 errors_logged := errors_logged st ++ [err] |}
          end
      end
  end.

(** The body of [useEffect]. *)
Definition effect (p : panel) (ctx : context) (server : api) (st : ui) : ui :=
  match profile ctx with
  | Some _ =>
      if negb (truthy (cachedStats ctx)) then fetchStats p ctx server st
      else {| isLoading := isLoading st; error := error st; stats := cachedStats ctx;
              errors_logged := errors_logged st |}
  | None =>
      if truthy (cachedStats ctx)
      then {| isLoading := isLoading st; error := error st; stats := cachedStats ctx;
              errors_logged := errors_logged st |}
      else st
  end.

(** What the component returns. *)
Inductive view : Type :=
  | Spinner
  | ErrorPanel (message : value)
  | Placeholder
  | StatsView (shown : value).

Definition render (ctx : context) (st : ui) : view :=
  if loading ctx || isLoading st then Spinner
  else if truthy (error st) then ErrorPanel (error st)
  else if negb (truthy (stats st)) then Placeholder
  else StatsView (stats st).

End Client.

(** What [JSON.parse] gives back of what [JSON.stringify] (hence
    [res.json]) writes: a property whose value is [undefined] is left
    out of its object, an [undefined] array element and a number that
    is not finite become [null]. *)
#[warnings="-register-all"]
Fixpoint wire (v : value) : value :=
  match v with
  | VDouble (S754_finite _ _ _ as x) => VDouble x
  | VDouble (S754_zero _ as x) => VDouble x
  | VDouble _ => VNull
  | VArr xs =>
      VArr (map (fun x => match x with VUndefined => VNull | _ => wire x end) xs)
  | VObj fields =>
      VObj ((fix properties (l : list (jsstring * value)) : list (jsstring * value) :=
               match l with
               | [] => []
               | (_, VUndefined) :: r => properties r
               | (k, x) :: r => (k, wire x) :: properties r
               end) fields)
  | other => other
  end.

(** The properties of the wire form of an object. *)
Definition wire_fields (fields : list (jsstring * value)) : list (jsstring * value) :=
  match wire (VObj fields) with VObj written => written | _ => [] end.

(** A value that travels unchanged: it is not [undefined] and its
    wire form is itself. *)
Definition plain (v : value) : Prop := v <> VUndefined /\ wire v = v.

(** A GitHub payload in which no property the handler reads is
    missing. *)
Definition plain_user (u : gh_user) : Prop :=
  Forall plain
    [login u; name u; avatar_url u; bio u; company u; blog u; location u; followers u;
     following u; public_repos u; public_gists u].

Definition plain_repo (r : gh_repo) : Prop :=
  Forall plain [repo_name r; description r; forks_count r; html_url r; updated_at r].

(** What the browser's axios makes of an answer of the server: the
    parsed body of a 2xx answer, a rejection for any other status. *)
Definition delivered (answer : result response) : outcome value :=
  match answer with
  | Ok r =>
      if (200 <=? status r) && (status r <? 300) then Fulfilled (wire (json r))
      else Rejected (AxiosError (HttpError (status r)) (get "message" (wire (json r))))
  | Throw e => Rejected (AxiosError (HttpError 500) VUndefined)
  end.

(** A context without cached statistics, for a loaded profile. *)
Definition fresh_context (doc : profile_doc) : Client.context :=
  {| Client.cachedStats := VNull; Client.loading := false; Client.profile := Some doc |}.

(** A world in which LeetCode answers that it does not know the
    username. *)
Definition leetcode_world : world :=
  {| github_users := fun _ => Rejected (AxiosError Timeout VUndefined);
     github_repos := fun _ => Rejected (AxiosError Timeout VUndefined);
     leetcode_graphql := fun _ => Fulfilled (WellFormed nobody);
     own_server := fun _ => Rejected (AxiosError Timeout VUndefined);
     Profile_findOne := fun _ => Fulfilled None;
     GITHUB_TOKEN := None;
     clock := fun _ => 0 |}.

Definition plain_profile : profile_doc :=
  {| platforms :=
       [{| pb_name := lit "GitHub"; pb_username := lit "octocat" |};
        {| pb_name := lit "LeetCode"; pb_username := lit "alice" |}] |}.

(** * Properties *)

(** ** Strings and the monad *)

Lemma jsstring_eqb_eq (a b : jsstring) : jsstring_eqb a b = true <-> a = b.
Proof.
  revert b; induction a as [|x a IH]; intros [|y b]; simpl; split; try easy.
  - intros H. apply andb_true_iff in H as [Hx Hr].
    apply N.eqb_eq in Hx. apply IH in Hr. now subst.
  - intros H. injection H as -> ->. apply andb_true_iff. split.
    + apply N.eqb_refl.
    + now apply IH.
Qed.

Lemma jsstring_eqb_neq (a b : jsstring) : jsstring_eqb a b = false <-> a <> b.
Proof.
  split.
  - intros H E. apply jsstring_eqb_eq in E. congruence.
  - intros H. destruct (jsstring_eqb a b) eqn:E; [|reflexivity].
    apply jsstring_eqb_eq in E. contradiction.
Qed.

(** ** The stable sort *)

Section SortFacts.
Context {A : Type} (key : A -> Z).

Let cmp : A -> A -> Z := fun a b => key b - key a.
Let R : A -> A -> Prop := fun a b => key a >= key b.

Lemma sort_insert_perm (x : A) (l : list A) :
  Permutation (x :: l) (sort_insert cmp x l).
Proof.
  induction l as [|y r IH]; simpl.
  - apply Permutation_refl.
  - destruct (0 <? cmp x y).
    + eapply perm_trans; [apply perm_swap|]. now apply perm_skip.
    + apply Permutation_refl.
Qed.

Lemma sort_perm (l : list A) : Permutation l (sort cmp l).
Proof.
  induction l as [|x r IH]; simpl.
  - apply perm_nil.
  - eapply perm_trans; [apply perm_skip, IH|]. apply sort_insert_perm.
Qed.

Lemma sort_insert_sorted (x : A) (l : list A) :
  StronglySorted R l -> StronglySorted R (sort_insert cmp x l).
Proof.
  induction 1 as [|y r Hs IH Hy]; simpl.
  - constructor; constructor.
  - destruct (0 <? cmp x y) eqn:E.
    + constructor; [exact IH|].
      apply Z.ltb_lt in E. unfold cmp in E.
      eapply Permutation_Forall; [apply sort_insert_perm|].
      constructor; [unfold R; lia | exact Hy].
    + apply Z.ltb_ge in E. unfold cmp in E.
      constructor; [now constructor|].
      constructor; [unfold R; lia|].
      eapply Forall_impl; [|exact Hy]. unfold R. intros; lia.
Qed.

Lemma sort_sorted (l : list A) : StronglySorted R (sort cmp l).
Proof.
  induction l as [|x r IH]; simpl.
  - constructor.
  - now apply sort_insert_sorted.
Qed.

Lemma sort_insert_filter (k : Z) (x : A) (l : list A) :
  filter (fun a => key a =? k) (sort_insert cmp x l)
  = filter (fun a => key a =? k) (x :: l).
Proof.
  induction l as [|y r IH]; [reflexivity|].
  simpl sort_insert. destruct (0 <? cmp x y) eqn:E; [|reflexivity].
  apply Z.ltb_lt in E. unfold cmp in E.
  simpl in *. rewrite IH.
  destruct (key x =? k) eqn:Ex, (key y =? k) eqn:Ey; try reflexivity.
  apply Z.eqb_eq in Ex, Ey. lia.
Qed.

Lemma sort_filter (k : Z) (l : list A) :
  filter (fun a => key a =? k) (sort cmp l) = filter (fun a => key a =? k) l.
Proof.
  induction l as [|x r IH]; [reflexivity|].
  simpl sort. rewrite sort_insert_filter. simpl. now rewrite IH.
Qed.

Lemma sort_stable_descending (l : list A) :
  stable_descending key l (sort (fun a b => key b - key a) l).
Proof.
  split; [apply sort_perm|]. split; [apply sort_sorted|].
  intros k. apply sort_filter.
Qed.

(** The three conditions leave no choice: a list has one stable
    descending arrangement. *)
Lemma stable_descending_unique (l s1 s2 : list A) :
  stable_descending key l s1 -> stable_descending key l s2 -> s1 = s2.
Proof.
  intros (P1 & S1 & F1) (P2 & S2 & F2).
  assert (F : forall k, filter (fun a => key a =? k) s1 = filter (fun a => key a =? k) s2)
    by (intros k; now rewrite F1, F2).
  assert (P : Permutation s1 s2) by (eapply perm_trans; [symmetry; exact P1 | exact P2]).
  clear F1 F2 P1 P2 l.
  revert s2 S2 F P. induction S1 as [|x r1 Hs1 IH Hx]; intros s2 S2 F P.
  - apply Permutation_nil in P. now subst.
  - destruct s2 as [|y r2].
    + symmetry in P. apply Permutation_nil in P. discriminate.
    + inversion S2 as [|? ? Hs2 Hy]; subst.
      assert (Kxy : key x = key y).
      { assert (In y (x :: r1)) as Iy
          by (eapply Permutation_in; [symmetry; exact P | now left]).
        assert (In x (y :: r2)) as Ix by (eapply Permutation_in; [exact P | now left]).
        rewrite Forall_forall in Hx, Hy.
        assert (key x >= key y) by (destruct Iy as [<-|Iy]; [lia | now apply Hx]).
        assert (key y >= key x) by (destruct Ix as [<-|Ix]; [lia | now apply Hy]).
        lia. }
      pose proof (F (key x)) as Fx. simpl in Fx.
      rewrite Z.eqb_refl in Fx. rewrite <- Kxy, Z.eqb_refl in Fx.
      injection Fx as <- Fr.
      f_equal. apply IH; [exact Hs2| |now apply Permutation_cons_inv in P].
      intros k. specialize (F k). simpl in F.
      destruct (key x =? k); [now injection F | exact F].
Qed.
End SortFacts.

(** ** LeetCode: solved counts and top tags *)

Lemma find_first_match {A : Type} (f : A -> bool) (before : list A) (e : A) (after : list A) :
  f e = true -> (forall x, In x before -> f x = false) ->
  find f (before ++ e :: after) = Some e.
Proof.
  intros He Hb. induction before as [|y r IH]; simpl.
  - now rewrite He.
  - rewrite (Hb y) by now left. apply IH. intros x Hx. apply Hb. now right.
Qed.

Lemma find_no_match {A : Type} (f : A -> bool) (l : list A) :
  (forall x, In x l -> f x = false) -> find f l = None.
Proof.
  intros H. induction l as [|y r IH]; simpl; [reflexivity|].
  rewrite (H y) by now left. apply IH. intros x Hx. apply H. now right.
Qed.




(** C8: the normalised [topTags] is the concatenation of the
    [advanced], [intermediate] and [fundamental] lists of the payload's
    [tagProblemCounts] (an absent list, and an absent [matchedUser] or
    [tagProblemCounts], counting as empty), arranged by non-increasing
    [problemsSolved] with entries of equal [problemsSolved] in their
    order of concatenation, cut to its first 5 entries. *)
Theorem leetcode_topTags (userData : lc_data) :
  let merged :=
    match matchedUser userData with
    | None => []
    | Some user =>
        match tagProblemCounts user with
        | None => []
        | Some counts =>
            match advanced counts with Some tags => tags | None => [] end
              ++ match intermediate counts with Some tags => tags | None => [] end
              ++ match fundamental counts with Some tags => tags | None => [] end
        end
    end in
  exists sorted,
    stable_descending problemsSolved merged sorted
    /\ (forall other, stable_descending problemsSolved merged other -> other = sorted)
    /\ LeetCode.topTags userData = firstn 5 sorted
    /\ (length (LeetCode.topTags userData) <= 5)%nat
    /\ get "topTags" (LeetCode.leetcodeStats userData)
       = VArr (map LeetCode.tag_value (firstn 5 sorted)).
Proof.
  intros merged.
  assert (M : merged
              = LeetCode.tier userData advanced ++ LeetCode.tier userData intermediate
                  ++ LeetCode.tier userData fundamental).
  { subst merged. unfold LeetCode.tier.
    destruct (matchedUser userData) as [user|]; [|reflexivity]. simpl.
    destruct (tagProblemCounts user) as [counts|]; reflexivity. }
  exists (sort (fun a b => problemsSolved b - problemsSolved a) merged).
  pose proof (sort_stable_descending problemsSolved merged) as S.
  split; [exact S|]. split.
  - intros other O. eapply stable_descending_unique; eassumption.
  - rewrite M. split; [reflexivity|]. split; [|reflexivity].
    change (LeetCode.topTags userData)
      with (firstn 5 (sort (fun a b => problemsSolved b - problemsSolved a)
                        (LeetCode.tier userData advanced ++ LeetCode.tier userData intermediate
                           ++ LeetCode.tier userData fundamental))).
    apply firstn_le_length.
Qed.

Lemma leetcode_topTags_example :
  LeetCode.topTags
    (leetcode_user []
       [tag "dp" 4; tag "trie" 7]
       [tag "hash" 7; tag "tree" 9; tag "graph" 4]
       [tag "array" 7; tag "string" 2])
  = [tag "tree" 9; tag "trie" 7; tag "hash" 7; tag "array" 7; tag "dp" 4].
Proof. reflexivity. Qed.

Lemma leetcode_tier_absent :
  LeetCode.topTags
    {| matchedUser := None; userContestRanking := None; recentSubmissionList := VUndefined |}
  = [].
Proof. reflexivity. Qed.

(** ** GitHub: running the handlers *)

Ltac run :=
  cbv beta iota delta
    [bind try_catch ret throw axios read findOne Date_now console_log console_failure].

Lemma repos_at_ext (username : jsstring) (names : list jsstring) (t1 t2 : nat -> Z) :
  (forall k, (k < length names)%nat -> t1 k = t2 k) ->
  repos_at username names t1 = repos_at username names t2.
Proof.
  revert t1 t2. induction names as [|name rest IH]; intros t1 t2 H; [reflexivity|].
  simpl. rewrite (H O) by (simpl; lia). f_equal.
  apply IH. intros k Hk. apply H. simpl. lia.
Qed.

Lemma mapM_mockRepo (username : jsstring) (names : list jsstring) (w : world) (s : state) :
  mapM (GitHub.mockRepo username) names w s
  = (Ok (repos_at username names (readings w s)),
     {| issued := issued s; console := console s; ticks := ticks s + length names |}).
Proof.
  revert s. induction names as [|name rest IH]; intros s.
  - simpl. run. destruct s; simpl. now rewrite Nat.add_0_r.
  - simpl mapM. unfold GitHub.mockRepo. run. rewrite IH. simpl.
    unfold readings. simpl. rewrite Nat.add_0_r, <- plus_n_Sm. do 3 f_equal.
    apply repos_at_ext. intros k _. now rewrite <- plus_n_Sm.
Qed.

Lemma mockStats_run (toUpperCase : jsstring -> jsstring) (username : jsstring)
    (w : world) (s : state) :
  GitHub.mockStats toUpperCase username w s
  = (Ok (synthesized toUpperCase username (readings w s)),
     {| issued := issued s; console := console s;
        ticks := S (ticks s + length (slice0 (random username 3 8) GitHub.repoNames)) |}).
Proof.
  unfold GitHub.mockStats, GitHub.mockTopRepos. run. rewrite mapM_mockRepo. reflexivity.
Qed.

Ltac case_upstream :=
  repeat match goal with
    | |- context [github_users ?w ?r] => destruct (github_users w r) as [[?|]|?]; simpl
    | |- context [github_repos ?w ?r] => destruct (github_repos w r) as [[?|]|?]; simpl
    | H : context [github_users ?w ?r] |- _ =>
        destruct (github_users w r) as [[?|]|?]; simpl in H
    | H : context [github_repos ?w ?r] |- _ =>
        destruct (github_repos w r) as [[?|]|?]; simpl in H
    end.

Lemma github_fallback (toUpperCase : jsstring -> jsstring) (username : jsstring)
    (w : world) (s : state) :
  upstream_ok OnGitHub username w = false ->
  exists s',
    GitHub.stats_by_username toUpperCase username w s
    = (Ok {| status := 200;
             json := success (synthesized toUpperCase username (readings w s)) |}, s').
Proof.
  unfold upstream_ok, GitHub.stats_by_username, GitHub.fetchReal.
  intros H. run. case_upstream; try discriminate H;
    rewrite mockStats_run; eexists; reflexivity.
Qed.

Lemma github_real (toUpperCase : jsstring -> jsstring) (username : jsstring)
    (w : world) (s : state) (userData : gh_user) (repos : list gh_repo) :
  github_users w (GitHub.user_request (GITHUB_TOKEN w) username)
    = Fulfilled (WellFormed userData) ->
  github_repos w (GitHub.repos_request (GITHUB_TOKEN w) username)
    = Fulfilled (WellFormed repos) ->
  exists s',
    GitHub.stats_by_username toUpperCase username w s
    = (Ok {| status := 200;
             json := success (GitHub.realStats userData repos (clock w (ticks s))) |}, s').
Proof.
  unfold GitHub.stats_by_username, GitHub.fetchReal.
  intros Hu Hr. run. rewrite Hu, Hr. simpl. eexists; reflexivity.
Qed.

(** ** GitHub: total stars *)

Lemma fold_left_add_sum {A : Type} (f : A -> Z) (l : list A) (acc : Z) :
  fold_left (fun acc x => acc + f x) l acc = acc + sum (map f l).
Proof.
  revert acc. induction l as [|x r IH]; intros acc; simpl.
  - lia.
  - rewrite IH. lia.
Qed.

Lemma totalStars_sum (repos : list gh_repo) :
  GitHub.totalStars repos = sum (map stargazers_count repos).
Proof. unfold GitHub.totalStars. now rewrite fold_left_add_sum. Qed.

(** C7: when GitHub answers both calls with readable bodies, the
    [totalStars] of the record the username endpoint returns is the sum
    of [stargazers_count] over the fetched repository list. *)
Theorem github_totalStars (toUpperCase : jsstring -> jsstring) (username : jsstring)
    (w : world) (s : state) (userData : gh_user) (repos : list gh_repo) :
  github_users w (GitHub.user_request (GITHUB_TOKEN w) username)
    = Fulfilled (WellFormed userData) ->
  github_repos w (GitHub.repos_request (GITHUB_TOKEN w) username)
    = Fulfilled (WellFormed repos) ->
  exists r s',
    GitHub.stats_by_username toUpperCase username w s = (Ok r, s')
    /\ status r = 200
    /\ get "success" (json r) = VBool true
    /\ get "totalStars" (get "data" (json r)) = VNum (sum (map stargazers_count repos)).
Proof.
  intros Hu Hr.
  destruct (github_real toUpperCase username w s userData repos Hu Hr) as [s' E].
  eexists; exists s'. split; [exact E|]. repeat split.
  change (VNum (GitHub.totalStars repos) = VNum (sum (map stargazers_count repos))).
  now rewrite totalStars_sum.
Qed.

(** Star counts 5, 0 and 12 give 17. *)
Lemma github_totalStars_example :
  map stargazers_count three_repos = [5; 0; 12]
  /\ exists r s',
       GitHub.stats_by_username asciiUpper (lit "octocat") (github_world false 0) start
       = (Ok r, s')
       /\ status r = 200
       /\ get "success" (json r) = VBool true
       /\ get "totalStars" (get "data" (json r)) = VNum 17.
Proof.
  split; [reflexivity|].
  exact (github_totalStars asciiUpper (lit "octocat") (github_world false 0) start
           octocat three_repos eq_refl eq_refl).
Defined.

Lemma github_totalStars_empty (userData : gh_user) (now : Z) :
  get "totalStars" (GitHub.realStats userData [] now) = VNum 0.
Proof. reflexivity. Qed.

(** ** GitHub: failure of the upstream calls *)

Lemma synthesized_dataSource (toUpperCase : jsstring -> jsstring) (username : jsstring)
    (times : nat -> Z) :
  get "dataSource" (synthesized toUpperCase username times)
  = VStr (lit "Mock Data (GitHub API unavailable)").
Proof. reflexivity. Qed.

Lemma realStats_dataSource (userData : gh_user) (repos : list gh_repo) (now : Z) :
  get "dataSource" (GitHub.realStats userData repos now) = VStr (lit "GitHub API").
Proof. reflexivity. Qed.

(** C4: when the profile call succeeds and the repository call is
    rejected, the GitHub username endpoint answers 200 with the whole
    synthesized record, which is the record it returns when the profile
    call is rejected as well: nothing of the fetched profile reaches
    it. *)
Theorem github_partial_failure (toUpperCase : jsstring -> jsstring) (username : jsstring)
    (w : world) (s : state) (userData : gh_user) (e : exn) :
  github_users w (GitHub.user_request (GITHUB_TOKEN w) username)
    = Fulfilled (WellFormed userData) ->
  github_repos w (GitHub.repos_request (GITHUB_TOKEN w) username) = Rejected e ->
  exists record,
    fst (GitHub.stats_by_username toUpperCase username w s)
    = Ok {| status := 200; json := success record |}
    /\ fst (GitHub.mockStats toUpperCase username w s) = Ok record
    /\ get "dataSource" record = VStr (lit "Mock Data (GitHub API unavailable)")
    /\ forall e', fst (GitHub.stats_by_username toUpperCase username (without_profile w e') s)
                  = Ok {| status := 200; json := success record |}.
Proof.
  intros Hu Hr.
  exists (synthesized toUpperCase username (readings w s)).
  split; [|split; [|split]].
  - destruct (github_fallback toUpperCase username w s) as [s' E].
    + unfold upstream_ok. now rewrite Hu, Hr.
    + now rewrite E.
  - now rewrite mockStats_run.
  - apply synthesized_dataSource.
  - intros e'.
    destruct (github_fallback toUpperCase username (without_profile w e') s) as [s' E].
    + reflexivity.
    + now rewrite E.
Qed.

Lemma github_partial_failure_example :
  exists record,
    fst (GitHub.stats_by_username asciiUpper (lit "octocat") (github_world true 0) start)
    = Ok {| status := 200; json := success record |}
    /\ fst (GitHub.mockStats asciiUpper (lit "octocat") (github_world true 0) start) = Ok record
    /\ get "dataSource" record = VStr (lit "Mock Data (GitHub API unavailable)")
    /\ forall e',
         fst (GitHub.stats_by_username asciiUpper (lit "octocat")
                (without_profile (github_world true 0) e') start)
         = Ok {| status := 200; json := success record |}.
Proof.
  exact (github_partial_failure asciiUpper (lit "octocat") (github_world true 0) start
           octocat (AxiosError (HttpError 403) VUndefined) eq_refl eq_refl).
Defined.

(** ** The username lookup under upstream failure *)

Lemma leetcode_failure (username : jsstring) (w : world) (s : state) :
  upstream_ok OnLeetCode username w = false ->
  exists s',
    LeetCode.stats_by_username username w s
    = (Ok {| status := 500;
             json := error (VStr (lit "Error fetching LeetCode stats")) |}, s').
Proof.
  unfold upstream_ok, LeetCode.stats_by_username, LeetCode.fetch_and_format, LeetCode.on_error.
  intros H. run.
  destruct (leetcode_graphql w _) as [[d|]|e]; simpl; try discriminate H;
    eexists; reflexivity.
Qed.

(** C1, as the specification words it, at one input: the LeetCode
    username endpoint, asked for [alice] while the upstream call times
    out, answers 500 with [success: false]. *)
Lemma leetcode_surfaces_upstream_failure :
  upstream_ok OnLeetCode (lit "alice") (unreachable_world 0) = false
  /\ exists r s',
       getByUsername asciiUpper OnLeetCode (lit "alice") (unreachable_world 0) start = (Ok r, s')
       /\ status r = 500
       /\ get "success" (json r) = VBool false
       /\ get "data" (json r) = VUndefined.
Proof.
  split; [reflexivity|]. eexists; eexists. split; [reflexivity|]. repeat split.
Qed.

(** C1, amended: when the upstream call of the username lookup fails
    (a rejected request, timeout and HTTP error included, or a body the
    handler cannot read), the GitHub endpoint answers 200 with
    [success: true] and the record synthesized from the username, whose
    [dataSource] is "Mock Data (GitHub API unavailable)"; the LeetCode
    endpoint answers 500 with [success: false] and the error "Error
    fetching LeetCode stats". *)
Theorem getByUsername_upstream_failure (toUpperCase : jsstring -> jsstring)
    (p : platform) (username : jsstring) (w : world) (s : state) :
  upstream_ok p username w = false ->
  exists r s',
    getByUsername toUpperCase p username w s = (Ok r, s')
    /\ match p with
       | OnGitHub =>
           status r = 200
           /\ get "success" (json r) = VBool true
           /\ fst (GitHub.mockStats toUpperCase username w s) = Ok (get "data" (json r))
           /\ get "dataSource" (get "data" (json r))
              = VStr (lit "Mock Data (GitHub API unavailable)")
       | OnLeetCode =>
           status r = 500
           /\ json r = error (VStr (lit "Error fetching LeetCode stats"))
       end.
Proof.
  intros H. destruct p; simpl.
  - destruct (github_fallback toUpperCase username w s H) as [s' E].
    eexists; exists s'. split; [exact E|].
    split; [reflexivity|]. split; [reflexivity|]. split.
    + now rewrite mockStats_run.
    + reflexivity.
  - destruct (leetcode_failure username w s H) as [s' E].
    eexists; exists s'. split; [exact E|]. split; reflexivity.
Qed.

Lemma getByUsername_upstream_failure_example :
  exists r s',
    getByUsername asciiUpper OnGitHub (lit "octocat") (github_world true 0) start = (Ok r, s')
    /\ status r = 200
    /\ get "success" (json r) = VBool true
    /\ fst (GitHub.mockStats asciiUpper (lit "octocat") (github_world true 0) start)
       = Ok (get "data" (json r))
    /\ get "dataSource" (get "data" (json r))
       = VStr (lit "Mock Data (GitHub API unavailable)").
Proof.
  exact (getByUsername_upstream_failure asciiUpper OnGitHub (lit "octocat")
           (github_world true 0) start eq_refl).
Defined.

(** ** The profile lookup without a binding *)

(** C3: when the stored profile of the authenticated user has no
    binding for the platform, or the user has no profile, the profile
    lookup answers 404 with [success: false] and a not-found message,
    and it does so without issuing a request, reading the clock or
    writing to the console: nothing is synthesized. *)
Theorem getByProfile_not_found (p : platform) (req : incoming) (w : world) (s : state) :
  no_binding p (req_user_id req) w = true ->
  getByProfile p req w s
  = (Ok {| status := 404;
           json := error (VStr (not_found_message p (req_user_id req) w)) |}, s).
Proof.
  unfold no_binding, not_found_message, getByProfile.
  intros H. destruct p; simpl;
    unfold GitHub.stats_by_profile, LeetCode.stats_by_profile; run;
    destruct (Profile_findOne w (req_user_id req)) as [[doc|]|e]; simpl;
    try discriminate H; try reflexivity;
    simpl in H; destruct (find _ (platforms doc)); try discriminate H; reflexivity.
Qed.

Lemma getByProfile_not_found_example :
  getByProfile OnGitHub
    {| req_protocol := lit "https"; req_host := lit "devlink.example"; req_user_id := lit "64f1c0ffee" |}
    (github_world false 0) start
  = (Ok {| status := 404; json := error (VStr (lit "GitHub profile not found")) |}, start).
Proof.
  exact (getByProfile_not_found OnGitHub
           {| req_protocol := lit "https"; req_host := lit "devlink.example"; req_user_id := lit "64f1c0ffee" |}
           (github_world false 0) start eq_refl).
Defined.

Lemma getByProfile_no_profile_example :
  getByProfile OnLeetCode
    {| req_protocol := lit "https"; req_host := lit "devlink.example"; req_user_id := lit "64f1c0ffee" |}
    (unreachable_world 0) start
  = (Ok {| status := 404; json := error (VStr (lit "Profile not found")) |}, start).
Proof. reflexivity. Qed.

(** ** Timeouts of the outbound requests *)

Lemma skipn_length_app {A : Type} (l new : list A) : skipn (length l) (l ++ new) = new.
Proof. induction l as [|x r IH]; simpl; [reflexivity | exact IH]. Qed.

Lemma github_requests (toUpperCase : jsstring -> jsstring) (username : jsstring)
    (w : world) (s : state) :
  let first := GitHub.user_request (GITHUB_TOKEN w) username in
  let second := GitHub.repos_request (GITHUB_TOKEN w) username in
  requests_of (GitHub.stats_by_username toUpperCase username) w s
  = match github_users w first with
    | Fulfilled _ => [first; second]
    | Rejected _ => [first]
    end.
Proof.
  unfold requests_of, GitHub.stats_by_username, GitHub.fetchReal. run.
  case_upstream; try rewrite mockStats_run; simpl;
    rewrite <- ?app_assoc; apply skipn_length_app.
Qed.

Lemma leetcode_requests (username : jsstring) (w : world) (s : state) :
  requests_of (LeetCode.stats_by_username username) w s
  = [LeetCode.graphql_request username].
Proof.
  unfold requests_of, LeetCode.stats_by_username, LeetCode.fetch_and_format, LeetCode.on_error.
  run. destruct (leetcode_graphql w _) as [[d|]|e]; simpl; apply skipn_length_app.
Qed.

(** C9, as the specification words it, at one input: the request the
    LeetCode username endpoint issues for [alice] carries no timeout. *)
Lemma leetcode_request_without_timeout :
  exists r,
    In r (requests_of (getByUsername asciiUpper OnLeetCode (lit "alice"))
            (unreachable_world 0) start)
    /\ url r = lit "https://leetcode.com/graphql"
    /\ timeout r = None.
Proof.
  exists (LeetCode.graphql_request (lit "alice")). split; [now left|]. split; reflexivity.
Qed.

(** C9, amended: every request the GitHub username endpoint sends to
    the GitHub API (the profile request, and the repository request
    when the first is answered) is constructed with a timeout of 5000
    milliseconds; the one request of the LeetCode username endpoint is
    constructed without a timeout. *)
Theorem upstream_request_timeouts (toUpperCase : jsstring -> jsstring)
    (username : jsstring) (w : world) (s : state) :
  (exists rest,
      requests_of (getByUsername toUpperCase OnGitHub username) w s
      = GitHub.user_request (GITHUB_TOKEN w) username :: rest)
  /\ Forall (fun r => timeout r = Some 5000)
       (requests_of (getByUsername toUpperCase OnGitHub username) w s)
  /\ requests_of (getByUsername toUpperCase OnLeetCode username) w s
     = [LeetCode.graphql_request username]
  /\ timeout (LeetCode.graphql_request username) = None.
Proof.
  simpl getByUsername. rewrite github_requests, leetcode_requests.
  split; [|split; [|split; reflexivity]];
    destruct (github_users w _); eauto; repeat constructor.
Qed.

(** The requests of the profile lookups carry no timeout either. *)
Lemma profile_requests_without_timeout (p : platform) (req : incoming)
    (w : world) (s : state) :
  Forall (fun r => timeout r = None) (requests_of (getByProfile p req) w s).
Proof.
  unfold requests_of, getByProfile.
  destruct p; simpl;
    unfold GitHub.stats_by_profile, LeetCode.stats_by_profile, LeetCode.fetch_and_format,
      LeetCode.on_error; run;
    destruct (Profile_findOne w (req_user_id req)) as [[doc|]|e]; simpl;
    try (rewrite <- (app_nil_r (issued s)) at 2; rewrite skipn_length_app; constructor);
    destruct (find _ (platforms doc)); simpl;
    try (rewrite <- (app_nil_r (issued s)) at 2; rewrite skipn_length_app; constructor).
  - destruct (own_server w _); simpl; rewrite skipn_length_app; repeat constructor.
  - destruct (leetcode_graphql w _) as [[d|]|e]; simpl; rewrite skipn_length_app;
      repeat constructor.
Qed.

(** ** The selector *)

Lemma seed_from (username : jsstring) (acc : Z) :
  0 <= acc -> 0 <= fold_left (fun acc char => acc + Z.of_N char) username acc.
Proof.
  revert acc. induction username as [|c r IH]; intros acc H; simpl; [exact H|].
  apply IH. lia.
Qed.

Lemma seed_nonneg (username : jsstring) : 0 <= seed username.
Proof. apply seed_from. lia. Qed.

Lemma random_of_seed_rem (sd min max : Z) :
  0 <= sd -> random_of_seed sd min max = random_of_seed (Z.rem sd 1000) min max.
Proof.
  intros H. unfold random_of_seed.
  rewrite (Z.rem_small (Z.rem sd 1000) 1000); [reflexivity|].
  apply Z.rem_bound_pos; lia.
Qed.

Lemma random_in_range (username : jsstring) (min max : Z) :
  selector_in_range min max = true -> min <= random username min max <= max.
Proof.
  intros H. unfold random. rewrite random_of_seed_rem by apply seed_nonneg.
  pose proof (Z.rem_bound_pos (seed username) 1000 (seed_nonneg username) eq_refl) as B.
  unfold selector_in_range in H. rewrite forallb_forall in H.
  specialize (H (Z.to_nat (Z.rem (seed username) 1000))).
  rewrite Z2Nat.id in H by lia.
  assert (In (Z.to_nat (Z.rem (seed username) 1000)) (seq 0 1000)) as I
    by (apply in_seq; lia).
  apply H in I. apply andb_true_iff in I as [I1 I2].
  apply Z.leb_le in I1, I2. lia.
Qed.

Lemma topRepos_count_range : selector_in_range 3 8 = true.
Proof. vm_compute. reflexivity. Qed.

Lemma location_range : selector_in_range 0 4 = true.
Proof. vm_compute. reflexivity. Qed.

(** Binary64 rounding shows in the selector: for [seed % 1000 = 700],
    [0.7 * 90] is just under 63, so [random(1, 90)] is 63 where the
    exact quotient would give 64. *)
Lemma random_rounds_in_binary64 :
  random_of_seed 700 1 90 = 63 /\ 700 * (90 - 1 + 1) / 1000 + 1 = 64.
Proof. split; reflexivity. Qed.

(** ** The synthesized record *)

Lemma repos_at_length (username : jsstring) (names : list jsstring) (times : nat -> Z) :
  length (repos_at username names times) = length names.
Proof.
  revert times. induction names as [|name rest IH]; intros times; simpl; [reflexivity|].
  now rewrite IH.
Qed.

Lemma repos_at_Forall (P : value -> Prop) (username : jsstring) (names : list jsstring)
    (times : nat -> Z) :
  (forall name now, In name names -> P (GitHub.mockRepoAt username name now)) ->
  Forall P (repos_at username names times).
Proof.
  revert times. induction names as [|name rest IH]; intros times H; simpl; constructor.
  - apply H. now left.
  - apply IH. intros n now Hn. apply H. now right.
Qed.

Lemma in_firstn {A : Type} (n : nat) (l : list A) (x : A) : In x (firstn n l) -> In x l.
Proof.
  revert l. induction n as [|n IH]; intros [|y r]; simpl; try easy.
  intros [->|H]; [now left | right; now apply IH].
Qed.

Lemma slice0_incl {A : Type} (e : Z) (l : list A) (x : A) : In x (slice0 e l) -> In x l.
Proof. unfold slice0. destruct (e <? 0); apply in_firstn. Qed.

Lemma topRepos_count (username : jsstring) :
  (3 <= length (slice0 (random username 3 8) GitHub.repoNames) <= 8)%nat.
Proof.
  pose proof (random_in_range username 3 8 topRepos_count_range) as B.
  unfold slice0. destruct (random username 3 8 <? 0) eqn:E; [apply Z.ltb_lt in E; lia|].
  rewrite length_firstn.
  change (length GitHub.repoNames) with 14%nat. lia.
Qed.

(** C10: the selector is a function of the seed and of its bounds, so
    two calls with the same bounds give the same value; in the record
    synthesized for a username all entries of [topRepos] (between 3 and
    8 of them) carry the same [stars], the same [forks] and the same
    number after the last hyphen of [name]. *)
Theorem mock_topRepos_identical (toUpperCase : jsstring -> jsstring) (username : jsstring)
    (w : world) (s : state) :
  (forall other min max, seed other = seed username ->
     random other min max = random username min max)
  /\ exists record s',
       GitHub.mockStats toUpperCase username w s = (Ok record, s')
       /\ (3 <= length (elements "topRepos" record) <= 8)%nat
       /\ Forall
            (fun repo =>
               get "stars" repo = VNum (random username 0 150)
               /\ get "forks" repo = VNum (random username 0 50)
               /\ exists base,
                    In base GitHub.repoNames
                    /\ get "name" repo
                       = VStr (base ++ lit "-" ++ numberToString (random username 1 99)))
            (elements "topRepos" record).
Proof.
  split.
  - intros other min max E. unfold random. now rewrite E.
  - rewrite mockStats_run. eexists; eexists. split; [reflexivity|].
    change (elements "topRepos" (synthesized toUpperCase username (readings w s)))
      with (repos_at username (slice0 (random username 3 8) GitHub.repoNames) (readings w s)).
    split.
    + rewrite repos_at_length. apply topRepos_count.
    + apply repos_at_Forall. intros name now Hn.
      split; [reflexivity|]. split; [reflexivity|].
      exists name. split; [|reflexivity]. eapply slice0_incl; exact Hn.
Qed.

Lemma mock_topRepos_example :
  map (fun repo => (get "name" repo, get "stars" repo, get "forks" repo))
    (elements "topRepos" (synthesized asciiUpper (lit "octocat") (fun _ => 0)))
  = map (fun base => (VStr (lit base), VNum 113, VNum 38))
      ["awesome-project-75"; "web-app-75"; "api-server-75"; "mobile-app-75";
       "data-analysis-75"; "machine-learning-75"; "portfolio-website-75"]%string.
Proof. vm_compute. reflexivity. Qed.

Lemma without_updatedAt (username : jsstring) (names : list jsstring) (t1 t2 : nat -> Z) :
  map (without "updatedAt") (repos_at username names t1)
  = map (without "updatedAt") (repos_at username names t2).
Proof.
  revert t1 t2. induction names as [|name rest IH]; intros t1 t2; [reflexivity|].
  simpl. f_equal. apply IH.
Qed.

Lemma stars_of_repos_at (username : jsstring) (names : list jsstring) (times : nat -> Z)
    (acc : Z) :
  fold_left (fun acc repo => acc + GitHub.number_of (get "stars" repo))
    (repos_at username names times) acc
  = acc + random username 0 150 * Z.of_nat (length names).
Proof.
  revert times acc. induction names as [|name rest IH]; intros times acc.
  - simpl. lia.
  - cbn [repos_at fold_left length]. rewrite IH.
    change (GitHub.number_of (get "stars" (GitHub.mockRepoAt username name (times O))))
      with (random username 0 150).
    lia.
Qed.

Lemma timeless_record (username name avatarUrl bio company blog location followers
    following publicRepos publicGists totalStars languages dataSource lastUpdated : value)
    (topRepos : list value) :
  timeless
    (VObj [
       (lit "username", username); (lit "name", name); (lit "avatarUrl", avatarUrl);
       (lit "bio", bio); (lit "company", company); (lit "blog", blog);
       (lit "location", location); (lit "followers", followers);
       (lit "following", following); (lit "publicRepos", publicRepos);
       (lit "publicGists", publicGists); (lit "totalStars", totalStars);
       (lit "languages", languages); (lit "topRepos", VArr topRepos);
       (lit "dataSource", dataSource); (lit "lastUpdated", lastUpdated)])
  = VObj [
       (lit "username", username); (lit "name", name); (lit "avatarUrl", avatarUrl);
       (lit "bio", bio); (lit "company", company); (lit "blog", blog);
       (lit "location", location); (lit "followers", followers);
       (lit "following", following); (lit "publicRepos", publicRepos);
       (lit "publicGists", publicGists); (lit "totalStars", totalStars);
       (lit "languages", languages);
       (lit "topRepos", VArr (map (without "updatedAt") topRepos));
       (lit "dataSource", dataSource)].
Proof. reflexivity. Qed.

Lemma timeless_mockStatsAt (toUpperCase : jsstring -> jsstring) (username : jsstring)
    (repos1 repos2 : list value) (now1 now2 : Z) :
  map (without "updatedAt") repos1 = map (without "updatedAt") repos2 ->
  fold_left (fun acc repo => acc + GitHub.number_of (get "stars" repo)) repos1 0
  = fold_left (fun acc repo => acc + GitHub.number_of (get "stars" repo)) repos2 0 ->
  timeless (GitHub.mockStatsAt toUpperCase username repos1 now1)
  = timeless (GitHub.mockStatsAt toUpperCase username repos2 now2).
Proof.
  intros Hr Hs. unfold GitHub.mockStatsAt.
  rewrite !timeless_record, Hr, Hs. reflexivity.
Qed.

Lemma timeless_synthesized (toUpperCase : jsstring -> jsstring) (username : jsstring)
    (t1 t2 : nat -> Z) :
  timeless (synthesized toUpperCase username t1)
  = timeless (synthesized toUpperCase username t2).
Proof.
  unfold synthesized. apply timeless_mockStatsAt.
  - apply without_updatedAt.
  - now rewrite !stars_of_repos_at.
Qed.

Lemma synthesized_ext (toUpperCase : jsstring -> jsstring) (username : jsstring)
    (t1 t2 : nat -> Z) :
  (forall k, t1 k = t2 k) ->
  synthesized toUpperCase username t1 = synthesized toUpperCase username t2.
Proof.
  intros H. unfold synthesized.
  rewrite (repos_at_ext username _ t1 t2) by (intros; apply H).
  now rewrite H.
Qed.

(** C2, as the specification words it, at one input: two syntheses
    for [octocat] one millisecond apart give different records. *)
Lemma synthesis_depends_on_clock :
  exists r1 r2,
    fst (GitHub.mockStats asciiUpper (lit "octocat") (unreachable_world 1700000000000) start)
    = Ok r1
    /\ fst (GitHub.mockStats asciiUpper (lit "octocat") (unreachable_world 1700000000001) start)
       = Ok r2
    /\ get "lastUpdated" r1 = VStr (lit "2023-11-14T22:13:20.000Z")
    /\ get "lastUpdated" r2 = VStr (lit "2023-11-14T22:13:20.001Z")
    /\ r1 <> r2.
Proof.
  eexists; eexists. split; [reflexivity|]. split; [reflexivity|].
  split; [vm_compute; reflexivity|]. split; [vm_compute; reflexivity|].
  intros E. apply (f_equal (get "lastUpdated")) in E. vm_compute in E. discriminate E.
Qed.

(** C2, amended: the record synthesized for a username is a function
    of the username and of the clock readings taken while it is built.
    Two syntheses for the same username agree on every field except
    [lastUpdated] and the [updatedAt] of the [topRepos] entries, and
    agree on those too when the clock readings are the same. *)
Theorem synthesis_deterministic_up_to_clock (toUpperCase : jsstring -> jsstring)
    (username : jsstring) (w1 w2 : world) (s1 s2 : state) :
  exists r1 r2,
    fst (GitHub.mockStats toUpperCase username w1 s1) = Ok r1
    /\ fst (GitHub.mockStats toUpperCase username w2 s2) = Ok r2
    /\ timeless r1 = timeless r2
    /\ ((forall k, readings w1 s1 k = readings w2 s2 k) -> r1 = r2).
Proof.
  rewrite !mockStats_run. eexists; eexists.
  split; [reflexivity|]. split; [reflexivity|]. split.
  - apply timeless_synthesized.
  - apply synthesized_ext.
Qed.

Lemma timeless_example :
  keys (timeless (synthesized asciiUpper (lit "octocat") (fun _ => 0)))
  = map lit ["username"; "name"; "avatarUrl"; "bio"; "company"; "blog"; "location";
             "followers"; "following"; "publicRepos"; "publicGists"; "totalStars";
             "languages"; "topRepos"; "dataSource"]%string
  /\ Forall (fun repo =>
               keys repo
               = map lit ["name"; "description"; "stars"; "forks"; "url"; "language"]%string)
       (elements "topRepos" (timeless (synthesized asciiUpper (lit "octocat") (fun _ => 0)))).
Proof. split; [reflexivity|]. vm_compute. repeat constructor. Qed.

(** ** Shape of the records *)

Lemma json_keys_incl (v : value) (k : jsstring) : In k (json_keys v) -> In k (keys v).
Proof.
  destruct v; simpl; try easy.
  intros H. apply in_map_iff in H as (kv & <- & H).
  apply filter_In in H as [H _]. now apply in_map.
Qed.

Lemma json_keys_defined (fs : list (jsstring * value)) :
  Forall (fun kv => snd kv <> VUndefined) fs -> json_keys (VObj fs) = keys (VObj fs).
Proof.
  simpl. induction 1 as [|[k v] r Hv _ IH]; [reflexivity|].
  simpl in *. destruct v; try contradiction; simpl; now rewrite IH.
Qed.

Lemma location_defined (username : jsstring) :
  opt_get (index GitHub.locations (random username 0 4)) VStr <> VUndefined.
Proof.
  pose proof (random_in_range username 0 4 location_range) as B.
  assert (random username 0 4 = 0 \/ random username 0 4 = 1 \/ random username 0 4 = 2
          \/ random username 0 4 = 3 \/ random username 0 4 = 4) as C by lia.
  destruct C as [E|[E|[E|[E|E]]]]; rewrite E; discriminate.
Qed.

Lemma synthesized_all_defined (toUpperCase : jsstring -> jsstring) (username : jsstring)
    (times : nat -> Z) :
  json_keys (synthesized toUpperCase username times)
  = keys (synthesized toUpperCase username times).
Proof.
  unfold synthesized, GitHub.mockStatsAt. apply json_keys_defined.
  repeat constructor; cbn [snd]; try discriminate.
  - destruct (truthy _); discriminate.
  - destruct (truthy _); discriminate.
  - apply location_defined.
Qed.

Lemma synthesized_repo_keys (toUpperCase : jsstring -> jsstring) (username : jsstring)
    (times : nat -> Z) (repo : value) :
  In repo (elements "topRepos" (synthesized toUpperCase username times)) ->
  keys repo
  = map lit ["name"; "description"; "stars"; "forks"; "url"; "language"; "updatedAt"]%string.
Proof.
  change (elements "topRepos" (synthesized toUpperCase username times))
    with (repos_at username (slice0 (random username 3 8) GitHub.repoNames) times).
  revert repo. apply Forall_forall. apply repos_at_Forall. reflexivity.
Qed.

Lemma real_repo_keys (userData : gh_user) (repos : list gh_repo) (now : Z) (repo : value) :
  In repo (elements "topRepos" (GitHub.realStats userData repos now)) ->
  keys repo
  = map lit ["name"; "description"; "stars"; "forks"; "url"; "language"; "updatedAt"]%string.
Proof.
  change (elements "topRepos" (GitHub.realStats userData repos now))
    with (GitHub.realTopRepos repos).
  unfold GitHub.realTopRepos. intros H. apply in_map_iff in H as (r & <- & _). reflexivity.
Qed.

Lemma synthesized_language_keys (toUpperCase : jsstring -> jsstring) (username : jsstring)
    (times : nat -> Z) (entry : value) :
  In entry (elements "languages" (synthesized toUpperCase username times)) ->
  keys entry = map lit ["name"; "count"]%string.
Proof.
  change (elements "languages" (synthesized toUpperCase username times))
    with (GitHub.selectedLanguages username).
  unfold GitHub.selectedLanguages. intros H. apply in_map_iff in H as (l & <- & _). reflexivity.
Qed.

Lemma real_language_keys (userData : gh_user) (repos : list gh_repo) (now : Z)
    (entry : value) :
  In entry (elements "languages" (GitHub.realStats userData repos now)) ->
  keys entry = map lit ["name"; "count"]%string.
Proof.
  change (elements "languages" (GitHub.realStats userData repos now))
    with (GitHub.languageStats repos).
  unfold GitHub.languageStats. intros H. apply slice0_incl in H.
  eapply Permutation_in in H;
    [|symmetry; apply (sort_perm (fun v => GitHub.number_of (get "count" v)))].
  apply in_map_iff in H as (l & <- & _). reflexivity.
Qed.

(** C5, as the specification words it, at one input: on LeetCode
    there is no synthesized record whose fields could be compared.
    What the username endpoint answers for [alice] when upstream fails
    carries no record at all, where a normalised LeetCode record has
    sixteen fields. *)
Lemma leetcode_has_no_synthesized_record :
  upstream_ok OnLeetCode (lit "alice") (unreachable_world 0) = false
  /\ exists r s',
       getByUsername asciiUpper OnLeetCode (lit "alice") (unreachable_world 0) start = (Ok r, s')
       /\ get "data" (json r) = VUndefined
       /\ keys (get "data" (json r)) = []
       /\ forall userData,
            length (keys (LeetCode.leetcodeStats userData)) = 16%nat
            /\ keys (get "data" (json r)) <> keys (LeetCode.leetcodeStats userData).
Proof.
  split; [reflexivity|]. eexists; eexists. split; [reflexivity|].
  split; [reflexivity|]. split; [reflexivity|].
  intros userData. split; [reflexivity | discriminate].
Qed.

(** C5, amended: on GitHub, the one platform whose router synthesizes
    a record, for every username and every readable upstream payload
    the synthesized record has the field names of the normalised real
    record, in the same order; every field a real response carries is
    carried by the synthesized one (which leaves no field undefined);
    and the entries of [topRepos] and of [languages] have the same
    field names in both. *)
Theorem github_shape_parity (toUpperCase : jsstring -> jsstring) (username : jsstring)
    (w : world) (s : state) (userData : gh_user) (repos : list gh_repo) (now : Z) :
  exists record s',
    GitHub.mockStats toUpperCase username w s = (Ok record, s')
    /\ keys record = keys (GitHub.realStats userData repos now)
    /\ incl (json_keys (GitHub.realStats userData repos now)) (json_keys record)
    /\ json_keys record = keys record
    /\ (forall a b, In a (elements "topRepos" record) ->
                    In b (elements "topRepos" (GitHub.realStats userData repos now)) ->
                    keys a = keys b)
    /\ (forall a b, In a (elements "languages" record) ->
                    In b (elements "languages" (GitHub.realStats userData repos now)) ->
                    keys a = keys b).
Proof.
  rewrite mockStats_run. eexists; eexists. split; [reflexivity|].
  split; [reflexivity|]. split; [|split; [|split]].
  - rewrite synthesized_all_defined. intros k Hk. apply json_keys_incl in Hk. exact Hk.
  - apply synthesized_all_defined.
  - intros a b Ha Hb.
    rewrite (synthesized_repo_keys _ _ _ _ Ha). symmetry. eapply real_repo_keys; exact Hb.
  - intros a b Ha Hb.
    rewrite (synthesized_language_keys _ _ _ _ Ha). symmetry.
    eapply real_language_keys; exact Hb.
Qed.

Lemma github_shape_parity_example :
  exists record s',
    GitHub.mockStats asciiUpper (lit "octocat") (unreachable_world 0) start = (Ok record, s')
    /\ keys record = keys (GitHub.realStats octocat three_repos 0)
    /\ incl (json_keys (GitHub.realStats octocat three_repos 0)) (json_keys record).
Proof.
  destruct (github_shape_parity asciiUpper (lit "octocat") (unreachable_world 0) start
              octocat three_repos 0) as (record & s' & E & K & I & _).
  exists record, s'. repeat split; assumption.
Defined.

Lemma github_record_keys (userData : gh_user) (repos : list gh_repo) (now : Z) :
  keys (GitHub.realStats userData repos now)
  = map lit ["username"; "name"; "avatarUrl"; "bio"; "company"; "blog"; "location";
             "followers"; "following"; "publicRepos"; "publicGists"; "totalStars";
             "languages"; "topRepos"; "dataSource"; "lastUpdated"]%string.
Proof. reflexivity. Qed.

(** What [res.json] writes of a real record can be less than its
    fields: a property the upstream profile lacks is left out. *)
Lemma real_response_may_omit_fields :
  json_keys (GitHub.realStats absent_user [] 0)
  = map lit ["totalStars"; "languages"; "topRepos"; "dataSource"; "lastUpdated"]%string.
Proof. reflexivity. Qed.

Lemma real_languages_example :
  GitHub.languageStats three_repos
  = [VObj [(lit "name", VStr (lit "Ruby")); (lit "count", VNum 2)]].
Proof. reflexivity. Qed.

(** ** Instances at sample inputs *)

Lemma synthesis_deterministic_up_to_clock_example :
  exists r1 r2,
    fst (GitHub.mockStats asciiUpper (lit "octocat") (unreachable_world 1700000000000) start)
    = Ok r1
    /\ fst (GitHub.mockStats asciiUpper (lit "octocat") (unreachable_world 1700000000001) start)
       = Ok r2
    /\ timeless r1 = timeless r2
    /\ ((forall k, readings (unreachable_world 1700000000000) start k
                   = readings (unreachable_world 1700000000001) start k) -> r1 = r2).
Proof.
  exact (synthesis_deterministic_up_to_clock asciiUpper (lit "octocat")
           (unreachable_world 1700000000000) (unreachable_world 1700000000001) start start).
Defined.

Lemma leetcode_topTags_instance :
  let userData :=
    leetcode_user [] [tag "dp" 4; tag "trie" 7]
      [tag "hash" 7; tag "tree" 9; tag "graph" 4] [tag "array" 7; tag "string" 2] in
  let top := [tag "tree" 9; tag "trie" 7; tag "hash" 7; tag "array" 7; tag "dp" 4] in
  LeetCode.topTags userData = top
  /\ get "topTags" (LeetCode.leetcodeStats userData) = VArr (map LeetCode.tag_value top).
Proof.
  intros userData top.
  destruct (leetcode_topTags userData) as (sorted & _ & U & E & _ & G).
  cbv zeta in U.
  pose proof (U _ (sort_stable_descending problemsSolved _)) as S.
  rewrite <- S in E, G. split; [rewrite E | rewrite G]; reflexivity.
Defined.

Lemma mock_topRepos_identical_instance :
  (forall other min max, seed other = seed (lit "octocat") ->
     random other min max = random (lit "octocat") min max)
  /\ exists record s',
       GitHub.mockStats asciiUpper (lit "octocat") (unreachable_world 0) start = (Ok record, s')
       /\ (3 <= length (elements "topRepos" record) <= 8)%nat
       /\ Forall
            (fun repo =>
               get "stars" repo = VNum (random (lit "octocat") 0 150)
               /\ get "forks" repo = VNum (random (lit "octocat") 0 50)
               /\ exists base,
                    In base GitHub.repoNames
                    /\ get "name" repo
                       = VStr (base ++ lit "-" ++ numberToString (random (lit "octocat") 1 99)))
            (elements "topRepos" record).
Proof.
  exact (mock_topRepos_identical asciiUpper (lit "octocat") (unreachable_world 0) start).
Defined.

Lemma upstream_request_timeouts_instance :
  (exists rest,
      requests_of (getByUsername asciiUpper OnGitHub (lit "octocat")) (github_world false 0) start
      = GitHub.user_request None (lit "octocat") :: rest)
  /\ Forall (fun r => timeout r = Some 5000)
       (requests_of (getByUsername asciiUpper OnGitHub (lit "octocat"))
          (github_world false 0) start)
  /\ requests_of (getByUsername asciiUpper OnLeetCode (lit "octocat"))
       (github_world false 0) start
     = [LeetCode.graphql_request (lit "octocat")]
  /\ timeout (LeetCode.graphql_request (lit "octocat")) = None.
Proof.
  exact (upstream_request_timeouts asciiUpper (lit "octocat") (github_world false 0) start).
Defined.

(** Each kind of upstream failure is a failure of the lookup. *)
Lemma failure_kinds (username : jsstring) (w : world) (f : failure) (message : value) :
  (github_users w (GitHub.user_request (GITHUB_TOKEN w) username)
     = Rejected (AxiosError f message) -> upstream_ok OnGitHub username w = false)
  /\ (github_repos w (GitHub.repos_request (GITHUB_TOKEN w) username)
        = Rejected (AxiosError f message) -> upstream_ok OnGitHub username w = false)
  /\ (github_users w (GitHub.user_request (GITHUB_TOKEN w) username) = Fulfilled Malformed ->
      upstream_ok OnGitHub username w = false)
  /\ (github_repos w (GitHub.repos_request (GITHUB_TOKEN w) username) = Fulfilled Malformed ->
      upstream_ok OnGitHub username w = false)
  /\ (leetcode_graphql w (LeetCode.graphql_request username) = Rejected (AxiosError f message) ->
      upstream_ok OnLeetCode username w = false)
  /\ (leetcode_graphql w (LeetCode.graphql_request username) = Fulfilled Malformed ->
      upstream_ok OnLeetCode username w = false).
Proof.
  unfold upstream_ok. repeat split; intros ->; try reflexivity;
    destruct (github_users w _) as [[?|]|?]; reflexivity.
Qed.

(** * Further properties of the routers *)

(** ** The first entries of a sorted list *)

Section TopFacts.
Context {A : Type} (key : A -> Z).

Lemma sorted_app_dominates (R : A -> A -> Prop) (a b : list A) :
  StronglySorted R (a ++ b) -> forall x y, In x a -> In y b -> R x y.
Proof.
  induction a as [|h t IH]; intros S x y Hx Hy; [contradiction|].
  simpl in S. inversion S as [|? ? St Hh]; subst.
  destruct Hx as [<-|Hx].
  - rewrite Forall_forall in Hh. apply Hh. apply in_or_app. now right.
  - now apply IH.
Qed.

Lemma slice0_top (n : nat) (l : list A) :
  let top := slice0 (Z.of_nat n) (sort (fun a b => key b - key a) l) in
  length top = Nat.min n (length l)
  /\ (forall x, In x top -> In x l)
  /\ StronglySorted (fun a b => key a >= key b) top
  /\ (forall y, In y l -> In y top \/ forall x, In x top -> key x >= key y)
  /\ ((length l <= n)%nat -> Permutation l top)
  /\ exists rest, Permutation l (top ++ rest).
Proof.
  intros top.
  pose proof (sort_perm key l) as P. pose proof (sort_sorted key l) as S.
  cbv zeta in P, S.
  set (sorted := sort (fun a b => key b - key a) l) in *.
  assert (E : top = firstn n sorted).
  { unfold top, slice0. destruct (Z.of_nat n <? 0) eqn:N; [apply Z.ltb_lt in N; lia|].
    now rewrite Nat2Z.id. }
  rewrite E. clear E top.
  rewrite <- (firstn_skipn n sorted) in S.
  split; [|split; [|split; [|split; [|split]]]].
  - rewrite length_firstn. now rewrite (Permutation_length P).
  - intros x Hx. apply in_firstn in Hx. eapply Permutation_in; [symmetry; exact P | exact Hx].
  - clear P. revert S. generalize (firstn n sorted). intros a.
    induction a as [|h t IH]; intros S; [constructor|].
    simpl in S. inversion S as [|? ? St Hh]; subst. constructor; [now apply IH|].
    rewrite Forall_forall in *. intros z Hz. apply Hh. apply in_or_app. now left.
  - intros y Hy. apply (Permutation_in _ P) in Hy.
    rewrite <- (firstn_skipn n sorted) in Hy. apply in_app_or in Hy as [Hy|Hy]; [now left|].
    right. intros x Hx. exact (sorted_app_dominates _ _ _ S x y Hx Hy).
  - intros L. rewrite firstn_all2; [exact P|]. now rewrite <- (Permutation_length P).
  - exists (skipn n sorted). now rewrite firstn_skipn.
Qed.
End TopFacts.

Lemma sum_app (a b : list Z) : sum (a ++ b) = sum a + sum b.
Proof. induction a as [|x r IH]; simpl; [reflexivity | rewrite IH; lia]. Qed.

Lemma sum_perm (a b : list Z) : Permutation a b -> sum a = sum b.
Proof. induction 1; simpl; lia. Qed.

Lemma sum_nonneg (l : list Z) : Forall (fun x => 0 <= x) l -> 0 <= sum l.
Proof. induction 1; simpl; lia. Qed.

(** ** GitHub: the real record's top repositories *)

Lemma realTopRepos_map (repos : list gh_repo) :
  map (fun entry => GitHub.number_of (get "stars" entry)) (GitHub.realTopRepos repos)
  = map stargazers_count
      (slice0 5 (sort (fun a b => stargazers_count b - stargazers_count a) repos)).
Proof. unfold GitHub.realTopRepos. rewrite map_map. reflexivity. Qed.

(** X1: the [topRepos] of the real record are rendered from at most
    five of the fetched repositories, five when there are that many:
    the first five of the fetched list arranged by non-increasing
    stars, repositories with equal stars staying in the order GitHub
    sent them.  A fetched repository that is left out has no more stars
    than any listed one. *)
Theorem github_topRepos_are_the_most_starred (userData : gh_user) (repos : list gh_repo)
    (now : Z) :
  exists top : list gh_repo,
    Forall2
      (fun repo entry =>
         get "name" entry = repo_name repo
         /\ get "description" entry = description repo
         /\ get "stars" entry = VNum (stargazers_count repo)
         /\ get "forks" entry = forks_count repo
         /\ get "url" entry = html_url repo
         /\ get "language" entry = GitHub.nullable (language repo)
         /\ get "updatedAt" entry = updated_at repo)
      top (elements "topRepos" (GitHub.realStats userData repos now))
    /\ length top = Nat.min 5 (length repos)
    /\ (forall r, In r top -> In r repos)
    /\ StronglySorted (fun a b => stargazers_count a >= stargazers_count b) top
    /\ (forall r, In r repos ->
          In r top \/ forall t, In t top -> stargazers_count t >= stargazers_count r)
    /\ exists sorted, stable_descending stargazers_count repos sorted
                      /\ top = firstn 5 sorted.
Proof.
  exists (slice0 5 (sort (fun a b => stargazers_count b - stargazers_count a) repos)).
  destruct (slice0_top stargazers_count 5 repos) as (L & I & S & D & _ & _).
  split; [|repeat split; try assumption;
           exists (sort (fun a b => stargazers_count b - stargazers_count a) repos);
           split; [apply sort_stable_descending | reflexivity]].
  change (elements "topRepos" (GitHub.realStats userData repos now))
    with (GitHub.realTopRepos repos).
  unfold GitHub.realTopRepos.
  generalize (slice0 5 (sort (fun a b => stargazers_count b - stargazers_count a) repos)).
  intros l. induction l as [|r t IH]; simpl; constructor; [|exact IH].
  repeat split.
Qed.

(** X2: in the real record the stars of the listed [topRepos] add up
    to [totalStars] when at most five repositories were fetched, and
    to no more than [totalStars] when no star count is negative. *)
Theorem github_topRepos_stars_within_total (userData : gh_user) (repos : list gh_repo)
    (now : Z) :
  let record := GitHub.realStats userData repos now in
  ((length repos <= 5)%nat ->
     sum (stars_of record) = GitHub.number_of (get "totalStars" record))
  /\ (Forall (fun repo => 0 <= stargazers_count repo) repos ->
        sum (stars_of record) <= GitHub.number_of (get "totalStars" record)).
Proof.
  intros record.
  change (GitHub.number_of (get "totalStars" record)) with (GitHub.totalStars repos).
  change (stars_of record)
    with (map (fun entry => GitHub.number_of (get "stars" entry)) (GitHub.realTopRepos repos)).
  rewrite realTopRepos_map, totalStars_sum.
  destruct (slice0_top stargazers_count 5 repos) as (_ & _ & _ & _ & P & _).
  pose proof (sort_perm stargazers_count repos) as Ps. cbv zeta in Ps.
  split.
  - intros L. symmetry. apply sum_perm. apply Permutation_map. now apply P.
  - intros N.
    rewrite (sum_perm _ _ (Permutation_map stargazers_count Ps)).
    set (sorted := sort (fun a b => stargazers_count b - stargazers_count a) repos) in *.
    assert (Ns : Forall (fun repo => 0 <= stargazers_count repo) sorted)
      by (eapply Permutation_Forall; eassumption).
    change (slice0 5 sorted) with (firstn 5 sorted).
    assert (sum (map stargazers_count sorted)
            = sum (map stargazers_count (firstn 5 sorted))
              + sum (map stargazers_count (skipn 5 sorted))) as Split
      by (rewrite <- sum_app, <- map_app; now rewrite firstn_skipn).
    assert (0 <= sum (map stargazers_count (skipn 5 sorted))); [|lia].
    apply sum_nonneg. apply Forall_map.
    rewrite <- (firstn_skipn 5 sorted) in Ns. apply Forall_app in Ns. tauto.
Qed.

Lemma github_topRepos_stars_within_total_example :
  let record := GitHub.realStats octocat three_repos 0 in
  sum (stars_of record) = GitHub.number_of (get "totalStars" record)
  /\ sum (stars_of record) <= GitHub.number_of (get "totalStars" record).
Proof.
  destruct (github_topRepos_stars_within_total octocat three_repos 0) as [E L].
  split; [apply E; unfold three_repos; simpl; lia|].
  apply L. unfold three_repos. repeat constructor; simpl; lia.
Defined.

(** ** GitHub: the language histogram *)

Lemma lookup_bump (k k' : jsstring) (m : list (jsstring * Z)) :
  lookup k' (GitHub.bump k m) = lookup k' m + (if jsstring_eqb k' k then 1 else 0).
Proof.
  induction m as [|[k0 c] r IH]; simpl.
  - destruct (jsstring_eqb k' k); lia.
  - destruct (jsstring_eqb k k0) eqn:E; simpl.
    + apply jsstring_eqb_eq in E. subst k0.
      destruct (jsstring_eqb k' k); lia.
    + destruct (jsstring_eqb k' k0) eqn:E'; [|exact IH].
      apply jsstring_eqb_eq in E'. subst k0.
      destruct (jsstring_eqb k' k) eqn:E''; [|lia].
      apply jsstring_eqb_eq in E''. subst k'.
      apply jsstring_eqb_neq in E. contradiction.
Qed.

Lemma bump_keys (k : jsstring) (m : list (jsstring * Z)) :
  NoDup (map fst m) ->
  NoDup (map fst (GitHub.bump k m))
  /\ forall x, In x (map fst (GitHub.bump k m)) <-> x = k \/ In x (map fst m).
Proof.
  induction m as [|[k0 c] r IH]; simpl; intros N.
  - split; [repeat constructor; easy|]. intros x. split; intros [H|H]; auto; easy.
  - inversion N as [|? ? Hn Nr]; subst.
    destruct (jsstring_eqb k k0) eqn:E; simpl.
    + apply jsstring_eqb_eq in E. subst k0. split; [exact N|]. intros x.
      intuition (subst; auto).
    + destruct (IH Nr) as [Nb Ib]. split.
      * constructor; [|exact Nb]. rewrite Ib. intros [H|H]; [|contradiction].
        subst k0. apply jsstring_eqb_neq in E. contradiction.
      * intros x. rewrite Ib. intuition (subst; auto).
Qed.

Lemma bump_positive (k : jsstring) (m : list (jsstring * Z)) :
  Forall (fun kc => 1 <= snd kc) m -> Forall (fun kc => 1 <= snd kc) (GitHub.bump k m).
Proof.
  induction 1 as [|[k0 c] r Hc Hr IH]; simpl.
  - repeat constructor. simpl. lia.
  - destruct (jsstring_eqb k k0); constructor; simpl in *; try assumption; lia.
Qed.

Lemma lookup_in (k : jsstring) (m : list (jsstring * Z)) :
  lookup k m <> 0 -> In (k, lookup k m) m.
Proof.
  induction m as [|[k0 c] r IH]; simpl; [easy|].
  destruct (jsstring_eqb k k0) eqn:E; intros H.
  - apply jsstring_eqb_eq in E. subst. now left.
  - right. now apply IH.
Qed.

Lemma in_lookup (k : jsstring) (c : Z) (m : list (jsstring * Z)) :
  NoDup (map fst m) -> In (k, c) m -> lookup k m = c.
Proof.
  induction m as [|[k0 c0] r IH]; simpl; [easy|].
  intros N [H|H]; inversion N as [|? ? Hn Nr]; subst.
  - injection H as -> ->. now rewrite (proj2 (jsstring_eqb_eq k k) eq_refl).
  - destruct (jsstring_eqb k k0) eqn:E; [|now apply IH].
    apply jsstring_eqb_eq in E. subst k0. exfalso. apply Hn.
    change k with (fst (k, c)). now apply in_map.
Qed.

Lemma occurrences_cons (k : jsstring) (repo : gh_repo) (repos : list gh_repo) :
  occurrences k (repo :: repos)
  = occurrences k repos
    + match language repo with
      | Some l => if jsstring_eqb k l then 1 else 0
      | None => 0
      end.
Proof.
  unfold occurrences. simpl.
  destruct (language repo) as [l|]; [destruct (jsstring_eqb k l)|]; simpl length; lia.
Qed.

(** The state of the histogram after the [forEach] loop, from any
    state before it. *)
Lemma countLanguages_from (repos : list gh_repo) (m : list (jsstring * Z)) :
  let after :=
    fold_left
      (fun languages repo =>
         match language repo with
         | Some (c :: l) => GitHub.bump (c :: l) languages
         | _ => languages
         end)
      repos m in
  NoDup (map fst m) -> Forall (fun kc => 1 <= snd kc) m -> ~ In [] (map fst m) ->
  NoDup (map fst after)
  /\ Forall (fun kc => 1 <= snd kc) after
  /\ ~ In [] (map fst after)
  /\ forall k, k <> [] -> lookup k after = lookup k m + occurrences k repos.
Proof.
  revert m. induction repos as [|repo rest IH]; intros m after N P E.
  - subst after. simpl. repeat split; try assumption.
    intros k _. unfold occurrences. simpl. lia.
  - subst after. simpl fold_left.
    destruct (language repo) as [[|c l]|] eqn:L.
    + destruct (IH m N P E) as (N' & P' & E' & H'). repeat split; try assumption.
      intros k Hk. rewrite (H' k Hk), occurrences_cons, L.
      destruct (jsstring_eqb k []) eqn:K; [|lia].
      apply jsstring_eqb_eq in K. contradiction.
    + destruct (bump_keys (c :: l) m N) as [Nb Ib].
      destruct (IH (GitHub.bump (c :: l) m) Nb (bump_positive _ _ P)) as (N' & P' & E' & H').
      { rewrite Ib. intros [H|H]; [discriminate | contradiction]. }
      repeat split; try assumption.
      intros k Hk. rewrite (H' k Hk), lookup_bump, occurrences_cons, L. lia.
    + destruct (IH m N P E) as (N' & P' & E' & H'). repeat split; try assumption.
      intros k Hk. rewrite (H' k Hk), occurrences_cons, L. lia.
Qed.

Lemma countLanguages_spec (repos : list gh_repo) :
  NoDup (map fst (GitHub.countLanguages repos))
  /\ (forall k c, In (k, c) (GitHub.countLanguages repos) ->
        k <> [] /\ 1 <= c /\ c = occurrences k repos)
  /\ (forall k, k <> [] -> occurrences k repos <> 0 ->
        In (k, occurrences k repos) (GitHub.countLanguages repos)).
Proof.
  destruct (countLanguages_from repos []) as (N & P & E & H);
    [constructor | constructor | easy |].
  fold (GitHub.countLanguages repos) in N, P, E, H.
  split; [exact N|]. split.
  - intros k c I.
    assert (k <> []) as Hk
      by (intros ->; apply E; apply (in_map fst _ _ I)).
    split; [exact Hk|]. split.
    + rewrite Forall_forall in P. exact (P _ I).
    + rewrite <- (in_lookup k c _ N I), (H k Hk). simpl. lia.
  - intros k Hk O. specialize (H k Hk). simpl in H. rewrite <- H.
    apply lookup_in. lia.
Qed.

Lemma NoDup_map_VStr (l : list jsstring) : NoDup l -> NoDup (map VStr l).
Proof.
  induction 1 as [|x r Hx Hr IH]; simpl; constructor; [|exact IH].
  intros H. apply in_map_iff in H as (y & E & Hy). injection E as ->. contradiction.
Qed.

(** X3: the [languages] of the real record list at most five
    languages, each once, with the number of fetched repositories
    written in it, in non-increasing order of that number; a
    repository without language (null or empty) is not counted, and a
    language that is left out is used by no more repositories than any
    listed one. *)
Theorem github_languages_histogram (userData : gh_user) (repos : list gh_repo) (now : Z) :
  let entries := elements "languages" (GitHub.realStats userData repos now) in
  (length entries <= 5)%nat
  /\ Forall
       (fun entry =>
          exists k,
            k <> []
            /\ entry = VObj [(lit "name", VStr k); (lit "count", VNum (occurrences k repos))]
            /\ 1 <= occurrences k repos)
       entries
  /\ NoDup (map (get "name") entries)
  /\ StronglySorted
       (fun a b => GitHub.number_of (get "count" a) >= GitHub.number_of (get "count" b))
       entries
  /\ (forall k, k <> [] -> occurrences k repos <> 0 ->
        In (VStr k) (map (get "name") entries)
        \/ Forall (fun e => GitHub.number_of (get "count" e) >= occurrences k repos) entries).
Proof.
  intros entries.
  change entries with (GitHub.languageStats repos). clear entries.
  unfold GitHub.languageStats.
  set (render := fun entry : jsstring * Z =>
                   VObj [(lit "name", VStr (fst entry)); (lit "count", VNum (snd entry))]).
  set (key := fun v => GitHub.number_of (get "count" v)).
  destruct (countLanguages_spec repos) as (N & S & C).
  destruct (slice0_top key 5 (map render (GitHub.countLanguages repos)))
    as (L & I & So & D & _ & rest & P).
  change (Z.of_nat 5) with 5 in *.
  fold key.
  change (sort (fun a b : value => GitHub.number_of (get "count" b)
                                   - GitHub.number_of (get "count" a)))
    with (sort (fun a b => key b - key a)).
  set (top := slice0 5 (sort (fun a b => key b - key a)
                          (map render (GitHub.countLanguages repos)))) in *.
  split; [|split; [|split; [|split]]].
  - rewrite L. apply Nat.le_min_l.
  - apply Forall_forall. intros entry He. apply I in He.
    apply in_map_iff in He as ([k c] & <- & Hkc).
    destruct (S k c Hkc) as (Hk & Hc & Ec). exists k. subst c. now repeat split.
  - apply (Permutation_map (get "name")) in P. rewrite map_app in P.
    eapply NoDup_app_remove_r. eapply Permutation_NoDup; [exact P|].
    rewrite map_map.
    change (map (fun x => get "name" (render x)) (GitHub.countLanguages repos))
      with (map (fun x : jsstring * Z => VStr (fst x)) (GitHub.countLanguages repos)).
    rewrite <- (map_map fst VStr). now apply NoDup_map_VStr.
  - exact So.
  - intros k Hk O. specialize (C k Hk O).
    apply (in_map render) in C. destruct (D _ C) as [T|T].
    + left. apply (in_map (get "name")) in T. exact T.
    + right. apply Forall_forall. intros e He. exact (T e He).
Qed.

Lemma github_languages_histogram_example :
  elements "languages"
    (GitHub.realStats octocat
       [repo_with "a" 1 (Some (lit "Go")); repo_with "b" 2 (Some (lit "Rust"));
        repo_with "c" 3 None; repo_with "d" 4 (Some (lit "Rust"));
        repo_with "e" 5 (Some (lit ""))] 0)
  = [VObj [(lit "name", VStr (lit "Rust")); (lit "count", VNum 2)];
     VObj [(lit "name", VStr (lit "Go")); (lit "count", VNum 1)]].
Proof. reflexivity. Qed.

(** ** The synthesized record: values *)

Lemma for_all_seeds_spec (check : Z -> bool) (username : jsstring) :
  for_all_seeds check = true -> check (Z.rem (seed username) 1000) = true.
Proof.
  intros H. unfold for_all_seeds in H. rewrite forallb_forall in H.
  pose proof (Z.rem_bound_pos (seed username) 1000 (seed_nonneg username) eq_refl) as B.
  specialize (H (Z.to_nat (Z.rem (seed username) 1000))).
  rewrite Z2Nat.id in H by lia. apply H. apply in_seq. lia.
Qed.

Lemma random_rem (username : jsstring) (min max : Z) :
  random username min max = random_of_seed (Z.rem (seed username) 1000) min max.
Proof. unfold random. apply random_of_seed_rem. apply seed_nonneg. Qed.

Lemma range_10_500 : selector_in_range 10 500 = true.
Proof. vm_compute. reflexivity. Qed.
Lemma range_20_200 : selector_in_range 20 200 = true.
Proof. vm_compute. reflexivity. Qed.
Lemma range_5_50 : selector_in_range 5 50 = true.
Proof. vm_compute. reflexivity. Qed.
Lemma range_0_20 : selector_in_range 0 20 = true.
Proof. vm_compute. reflexivity. Qed.
Lemma range_1_15 : selector_in_range 1 15 = true.
Proof. vm_compute. reflexivity. Qed.
Lemma range_3_6 : selector_in_range 3 6 = true.
Proof. vm_compute. reflexivity. Qed.
Lemma range_0_150 : selector_in_range 0 150 = true.
Proof. vm_compute. reflexivity. Qed.
Lemma range_0_50 : selector_in_range 0 50 = true.
Proof. vm_compute. reflexivity. Qed.
Lemma range_1_90 : selector_in_range 1 90 = true.
Proof. vm_compute. reflexivity. Qed.
Lemma range_1_99 : selector_in_range 1 99 = true.
Proof. vm_compute. reflexivity. Qed.

Lemma in_range_random (username : jsstring) (min max : Z) :
  selector_in_range min max = true -> in_range min max (VNum (random username min max)).
Proof. intros H. eexists. split; [reflexivity|]. now apply random_in_range. Qed.

Lemma synthesized_topRepos (toUpperCase : jsstring -> jsstring) (username : jsstring)
    (times : nat -> Z) :
  elements "topRepos" (synthesized toUpperCase username times)
  = repos_at username (slice0 (random username 3 8) GitHub.repoNames) times.
Proof. reflexivity. Qed.

Lemma synthesized_totalStars (toUpperCase : jsstring -> jsstring) (username : jsstring)
    (times : nat -> Z) :
  get "totalStars" (synthesized toUpperCase username times)
  = VNum (random username 0 150
          * Z.of_nat (length (slice0 (random username 3 8) GitHub.repoNames))).
Proof.
  change (get "totalStars" (synthesized toUpperCase username times))
    with (VNum (fold_left (fun acc repo => acc + GitHub.number_of (get "stars" repo))
                  (repos_at username (slice0 (random username 3 8) GitHub.repoNames) times) 0)).
  now rewrite stars_of_repos_at.
Qed.

(** X4: in a synthesized record [totalStars] is the sum of the stars
    of its [topRepos], that is the one star count times the number of
    entries. *)
Theorem mock_totalStars_is_sum (toUpperCase : jsstring -> jsstring) (username : jsstring)
    (w : world) (s : state) :
  exists record s',
    GitHub.mockStats toUpperCase username w s = (Ok record, s')
    /\ get "totalStars" record = VNum (sum (stars_of record))
    /\ sum (stars_of record)
       = random username 0 150 * Z.of_nat (length (elements "topRepos" record)).
Proof.
  rewrite mockStats_run. eexists; eexists. split; [reflexivity|].
  assert (E : sum (stars_of (synthesized toUpperCase username (readings w s)))
              = random username 0 150
                * Z.of_nat (length (slice0 (random username 3 8) GitHub.repoNames))).
  { unfold stars_of. rewrite synthesized_topRepos.
    pose proof (stars_of_repos_at username (slice0 (random username 3 8) GitHub.repoNames)
                  (readings w s) 0) as F.
    rewrite fold_left_add_sum in F. lia. }
  split.
  - rewrite synthesized_totalStars. now rewrite E.
  - rewrite E, synthesized_topRepos, repos_at_length. reflexivity.
Qed.

Lemma selectedLanguages_length (username : jsstring) :
  (3 <= length (GitHub.selectedLanguages username) <= 6)%nat.
Proof.
  unfold GitHub.selectedLanguages. rewrite length_map.
  pose proof (random_in_range username 3 6 range_3_6) as B.
  unfold slice0. destruct (random username 3 6 <? 0) eqn:E; [apply Z.ltb_lt in E; lia|].
  rewrite length_firstn. change (length GitHub.languages) with 8%nat. lia.
Qed.

(** X5: whatever the username, the numbers of a synthesized record stay
    within the bounds the handler gives the selector: followers 10 to
    500, following 20 to 200, public repositories 5 to 50, public gists
    0 to 20, 3 to 6 languages each with a count of 1 to 15, stars 0 to
    150 and forks 0 to 50 on every repository, total stars 0 to 1200. *)
Theorem mock_values_within_bounds (toUpperCase : jsstring -> jsstring) (username : jsstring)
    (w : world) (s : state) :
  exists record s',
    GitHub.mockStats toUpperCase username w s = (Ok record, s')
    /\ in_range 10 500 (get "followers" record)
    /\ in_range 20 200 (get "following" record)
    /\ in_range 5 50 (get "publicRepos" record)
    /\ in_range 0 20 (get "publicGists" record)
    /\ in_range 0 1200 (get "totalStars" record)
    /\ (3 <= length (elements "languages" record) <= 6)%nat
    /\ Forall (fun entry => in_range 1 15 (get "count" entry)) (elements "languages" record)
    /\ Forall (fun repo => in_range 0 150 (get "stars" repo)
                           /\ in_range 0 50 (get "forks" repo))
         (elements "topRepos" record).
Proof.
  rewrite mockStats_run. eexists; eexists. split; [reflexivity|].
  split; [apply in_range_random, range_10_500|].
  split; [apply in_range_random, range_20_200|].
  split; [apply in_range_random, range_5_50|].
  split; [apply in_range_random, range_0_20|].
  split; [|split; [|split]].
  - rewrite synthesized_totalStars. eexists. split; [reflexivity|].
    pose proof (random_in_range username 0 150 range_0_150).
    pose proof (topRepos_count username). nia.
  - apply selectedLanguages_length.
  - change (elements "languages" (synthesized toUpperCase username (readings w s)))
      with (GitHub.selectedLanguages username).
    unfold GitHub.selectedLanguages. apply Forall_map, Forall_forall. intros lang _.
    apply in_range_random, range_1_15.
  - rewrite synthesized_topRepos. apply repos_at_Forall. intros name now _.
    split; [apply in_range_random, range_0_150 | apply in_range_random, range_0_50].
Qed.

Lemma coin_checked : for_all_seeds coin_check = true.
Proof. vm_compute. reflexivity. Qed.

Lemma language_index_checked : for_all_seeds language_index_check = true.
Proof. vm_compute. reflexivity. Qed.

(** X6: in a synthesized record [company] and [blog] come from the same
    throw of the selector: for a username whose seed leaves a remainder
    below 500 modulo 1000 both are null, otherwise [company] is "Tech
    Company" and [blog] is [https://<username>.dev]. *)
Theorem mock_company_and_blog (toUpperCase : jsstring -> jsstring) (username : jsstring)
    (w : world) (s : state) :
  exists record s',
    GitHub.mockStats toUpperCase username w s = (Ok record, s')
    /\ if Z.rem (seed username) 1000 <? 500
       then get "company" record = VNull /\ get "blog" record = VNull
       else get "company" record = VStr (lit "Tech Company")
            /\ get "blog" record = VStr (lit "https://" ++ username ++ lit ".dev").
Proof.
  rewrite mockStats_run. eexists; eexists. split; [reflexivity|].
  pose proof (for_all_seeds_spec coin_check username coin_checked) as C.
  unfold coin_check in C. apply Z.eqb_eq in C. rewrite <- random_rem in C.
  change (get "company" (synthesized toUpperCase username (readings w s)))
    with (if truthy (VNum (random username 0 1)) then VStr (lit "Tech Company") else VNull).
  change (get "blog" (synthesized toUpperCase username (readings w s)))
    with (if truthy (VNum (random username 0 1))
          then VStr (lit "https://" ++ username ++ lit ".dev") else VNull).
  rewrite C. destruct (Z.rem (seed username) 1000 <? 500); split; reflexivity.
Qed.

Lemma languages_nonempty :
  Forall (fun lang => lang <> []) GitHub.languages.
Proof. unfold GitHub.languages. repeat constructor; discriminate. Qed.

(** X7: every repository of a synthesized record carries the same
    [language], and it is the name of one of the record's [languages]:
    the index the selector picks always falls inside the list, so the
    "JavaScript" default is never what decides. *)
Theorem mock_repo_language (toUpperCase : jsstring -> jsstring) (username : jsstring)
    (w : world) (s : state) :
  exists record s' lang,
    GitHub.mockStats toUpperCase username w s = (Ok record, s')
    /\ index (GitHub.selectedLanguages username)
         (random username 0 (Z.of_nat (length (GitHub.selectedLanguages username)) - 1))
       <> None
    /\ In (VStr lang) (map (get "name") (elements "languages" record))
    /\ Forall (fun repo => get "language" repo = VStr lang) (elements "topRepos" record).
Proof.
  rewrite mockStats_run.
  pose proof (for_all_seeds_spec language_index_check username language_index_checked) as C.
  unfold language_index_check in C. cbv zeta in C. rewrite <- !random_rem in C.
  apply andb_true_iff in C as [C1 C2]. apply Z.leb_le in C1. apply Z.ltb_lt in C2.
  assert (L : length (GitHub.selectedLanguages username)
              = length (slice0 (random username 3 6) GitHub.languages))
    by (unfold GitHub.selectedLanguages; apply length_map).
  rewrite <- L in C1, C2.
  set (i := random username 0 (Z.of_nat (length (GitHub.selectedLanguages username)) - 1)) in *.
  destruct (nth_error (GitHub.selectedLanguages username) (Z.to_nat i)) as [entry|] eqn:N;
    [|apply nth_error_None in N; lia].
  assert (I : index (GitHub.selectedLanguages username) i = Some entry).
  { unfold index. destruct (i <? 0) eqn:E; [apply Z.ltb_lt in E; lia | exact N]. }
  pose proof (nth_error_In _ _ N) as M.
  unfold GitHub.selectedLanguages in M. apply in_map_iff in M as (lang & E & Hl).
  assert (lang <> []) as Hn.
  { pose proof languages_nonempty as F. rewrite Forall_forall in F. apply F.
    eapply slice0_incl; exact Hl. }
  eexists; eexists; exists lang. split; [reflexivity|]. split; [|split].
  - fold i. rewrite I. discriminate.
  - change (elements "languages" (synthesized toUpperCase username (readings w s)))
      with (GitHub.selectedLanguages username).
    rewrite <- N in *. apply nth_error_In in N.
    apply (in_map (get "name")) in N. rewrite <- E in N at 1. exact N.
  - rewrite synthesized_topRepos. apply repos_at_Forall. intros name now _.
    change (get "language" (GitHub.mockRepoAt username name now))
      with (or_else (opt_get (index (GitHub.selectedLanguages username) i) (get "name"))
              (VStr (lit "JavaScript"))).
    rewrite I. simpl opt_get. rewrite <- E.
    change (get "name" (VObj [(lit "name", VStr lang);
                              (lit "count", VNum (random username 1 15))]))
      with (VStr lang).
    unfold or_else. destruct lang; [contradiction | reflexivity].
Qed.

Lemma seed_sum (username : jsstring) : seed username = sum (map Z.of_N username).
Proof. unfold seed. now rewrite fold_left_add_sum. Qed.

Lemma seed_app (a b : jsstring) : seed (a ++ b) = seed a + seed b.
Proof. now rewrite !seed_sum, map_app, sum_app. Qed.

(** X8: the seed does not see the order of the characters, and the
    selector sees the seed only modulo 1000.  Two usernames that are
    anagrams of each other, or whose character codes add up to the same
    number modulo 1000, get the same synthesized numbers: location,
    followers, following, repository and gist counts, total stars,
    languages, and the same number of repositories with the same stars
    and forks. *)
Theorem mock_numbers_depend_on_seed_mod_1000 (toUpperCase : jsstring -> jsstring)
    (u1 u2 : jsstring) (t1 t2 : nat -> Z) :
  (Permutation u1 u2 -> seed u1 = seed u2)
  /\ (Z.rem (seed u1) 1000 = Z.rem (seed u2) 1000 ->
      let r1 := synthesized toUpperCase u1 t1 in
      let r2 := synthesized toUpperCase u2 t2 in
      (forall min max, random u1 min max = random u2 min max)
      /\ (forall field,
            In field ["location"; "followers"; "following"; "publicRepos"; "publicGists";
                      "totalStars"; "languages"]%string ->
            get field r1 = get field r2)
      /\ length (elements "topRepos" r1) = length (elements "topRepos" r2)
      /\ map (get "stars") (elements "topRepos" r1) = map (get "stars") (elements "topRepos" r2)
      /\ map (get "forks") (elements "topRepos" r1)
         = map (get "forks") (elements "topRepos" r2)).
Proof.
  split.
  - intros P. rewrite !seed_sum. apply sum_perm. now apply Permutation_map.
  - intros E r1 r2.
    assert (R : forall min max, random u1 min max = random u2 min max)
      by (intros; now rewrite !random_rem, E).
    split; [exact R|].
    assert (SL : GitHub.selectedLanguages u1 = GitHub.selectedLanguages u2)
      by (unfold GitHub.selectedLanguages; now rewrite !R).
    split; [|split; [|split]].
    + intros field F. subst r1 r2.
      repeat (destruct F as [<-|F]); try contradiction.
      * change (opt_get (index GitHub.locations (random u1 0 4)) VStr
                = opt_get (index GitHub.locations (random u2 0 4)) VStr). now rewrite R.
      * change (VNum (random u1 10 500) = VNum (random u2 10 500)). now rewrite R.
      * change (VNum (random u1 20 200) = VNum (random u2 20 200)). now rewrite R.
      * change (VNum (random u1 5 50) = VNum (random u2 5 50)). now rewrite R.
      * change (VNum (random u1 0 20) = VNum (random u2 0 20)). now rewrite R.
      * rewrite !synthesized_totalStars. now rewrite !R.
      * change (VArr (GitHub.selectedLanguages u1) = VArr (GitHub.selectedLanguages u2)).
        now rewrite SL.
    + subst r1 r2. rewrite !synthesized_topRepos, !repos_at_length. now rewrite R.
    + subst r1 r2. rewrite !synthesized_topRepos, (R 3 8).
      generalize (slice0 (random u2 3 8) GitHub.repoNames). intros names.
      revert t1 t2. induction names as [|n r IH]; intros t1 t2; [reflexivity|].
      simpl. rewrite (R 0 150). f_equal. apply IH.
    + subst r1 r2. rewrite !synthesized_topRepos, (R 3 8).
      generalize (slice0 (random u2 3 8) GitHub.repoNames). intros names.
      revert t1 t2. induction names as [|n r IH]; intros t1 t2; [reflexivity|].
      simpl. rewrite (R 0 50). f_equal. apply IH.
Qed.

Lemma mock_numbers_depend_on_seed_mod_1000_example :
  seed (lit "ab") = seed (lit "ba")
  /\ get "followers" (synthesized asciiUpper (lit "ab") (fun _ => 0))
     = get "followers" (synthesized asciiUpper (lit "ba") (fun _ => 1)).
Proof.
  destruct (mock_numbers_depend_on_seed_mod_1000 asciiUpper (lit "ab") (lit "ba")
              (fun _ => 0) (fun _ => 1)) as [P F].
  assert (E : seed (lit "ab") = seed (lit "ba")) by (apply P; apply perm_swap).
  split; [exact E|].
  apply F; [now rewrite E | simpl; tauto].
Defined.

Lemma nth_error_repos_at (username : jsstring) (names : list jsstring) (times : nat -> Z)
    (i : nat) (repo : value) :
  nth_error (repos_at username names times) i = Some repo ->
  exists name, nth_error names i = Some name
               /\ repo = GitHub.mockRepoAt username name (times i).
Proof.
  revert times i. induction names as [|n r IH]; intros times i H.
  - destruct i; discriminate.
  - destruct i as [|i]; simpl in H.
    + injection H as <-. exists n. split; reflexivity.
    + destruct (IH _ _ H) as (name & Hn & ->). exists name. split; [exact Hn | reflexivity].
Qed.

(** X9: the synthesis reads the clock once for each repository, in
    order, and once more at the end.  [lastUpdated] is the last
    reading; the [updatedAt] of a repository is its own reading moved
    back by a number of days between 1 and 90, the same number for
    all. *)
Theorem mock_timestamps (toUpperCase : jsstring -> jsstring) (username : jsstring)
    (w : world) (s : state) :
  exists record s' days,
    GitHub.mockStats toUpperCase username w s = (Ok record, s')
    /\ 1 <= days <= 90
    /\ ticks s' = S (ticks s + length (elements "topRepos" record))
    /\ issued s' = issued s
    /\ console s' = console s
    /\ get "lastUpdated" record
       = VStr (toISOString (clock w (ticks s + length (elements "topRepos" record))))
    /\ forall i repo,
         nth_error (elements "topRepos" record) i = Some repo ->
         get "updatedAt" repo
         = VStr (toISOString (clock w (ticks s + i) - days * msPerDay)).
Proof.
  rewrite mockStats_run. eexists; eexists; exists (random username 1 90).
  split; [reflexivity|]. split; [apply random_in_range, range_1_90|].
  rewrite synthesized_topRepos, repos_at_length.
  split; [reflexivity|]. split; [reflexivity|]. split; [reflexivity|].
  split; [reflexivity|].
  intros i repo H. apply nth_error_repos_at in H as (name & _ & ->).
  change (get "updatedAt" (GitHub.mockRepoAt username name (readings w s i)))
    with (VStr (toISOString (readings w s i - random username 1 90 * 24 * 60 * 60 * 1000))).
  unfold readings, msPerDay. do 2 f_equal. lia.
Qed.

(** ** The username lookups: status and console *)

Lemma upstream_ok_github (username : jsstring) (w : world) :
  upstream_ok OnGitHub username w = true ->
  exists userData repos,
    github_users w (GitHub.user_request (GITHUB_TOKEN w) username)
      = Fulfilled (WellFormed userData)
    /\ github_repos w (GitHub.repos_request (GITHUB_TOKEN w) username)
       = Fulfilled (WellFormed repos).
Proof.
  unfold upstream_ok. intros H.
  destruct (github_users w _) as [[userData|]|?]; try discriminate;
    destruct (github_repos w _) as [[repos|]|?]; try discriminate.
  exists userData, repos. split; reflexivity.
Qed.

Lemma github_username_run (toUpperCase : jsstring -> jsstring) (username : jsstring)
    (w : world) (s : state) :
  exists record s',
    GitHub.stats_by_username toUpperCase username w s
    = (Ok {| status := 200; json := success record |}, s')
    /\ get "dataSource" record
       = VStr (if upstream_ok OnGitHub username w
               then lit "GitHub API"
               else lit "Mock Data (GitHub API unavailable)").
Proof.
  destruct (upstream_ok OnGitHub username w) eqn:U.
  - destruct (upstream_ok_github username w U) as (userData & repos & Hu & Hr).
    destruct (github_real toUpperCase username w s userData repos Hu Hr) as [s' E].
    eexists; exists s'. split; [exact E | reflexivity].
  - destruct (github_fallback toUpperCase username w s U) as [s' E].
    eexists; exists s'. split; [exact E | reflexivity].
Qed.

(** X10: the GitHub username endpoint answers every request with
    status 200 and [success: true]; it never throws and never reaches
    its own 500 branch.  The record says where it comes from:
    [dataSource] is "GitHub API" exactly when both upstream calls gave
    readable bodies, and "Mock Data (GitHub API unavailable)"
    otherwise. *)
Theorem github_username_always_200 (toUpperCase : jsstring -> jsstring) (username : jsstring)
    (w : world) (s : state) :
  exists record s',
    GitHub.stats_by_username toUpperCase username w s
    = (Ok {| status := 200; json := success record |}, s')
    /\ get "dataSource" record
       = VStr (if upstream_ok OnGitHub username w
               then lit "GitHub API"
               else lit "Mock Data (GitHub API unavailable)").
Proof.
  destruct (upstream_ok OnGitHub username w) eqn:U.
  - destruct (upstream_ok_github username w U) as (userData & repos & Hu & Hr).
    destruct (github_real toUpperCase username w s userData repos Hu Hr) as [s' E].
    eexists; exists s'. split; [exact E | reflexivity].
  - destruct (github_fallback toUpperCase username w s U) as [s' E].
    eexists; exists s'. split; [exact E | reflexivity].
Qed.

(** X11: the LeetCode username endpoint never throws; it answers 200
    with [success: true] and the normalised record exactly when the
    upstream call gave a readable body, and 500 with [success: false]
    otherwise.  It writes to the console only in the second case: one
    line, with the exception it caught. *)
Theorem leetcode_username_status (username : jsstring) (w : world) (s : state) :
  exists r s',
    LeetCode.stats_by_username username w s = (Ok r, s')
    /\ ticks s' = ticks s
    /\ match leetcode_graphql w (LeetCode.graphql_request username) with
       | Fulfilled (WellFormed userData) =>
           r = {| status := 200; json := success (LeetCode.leetcodeStats userData) |}
           /\ console s' = console s
       | Fulfilled Malformed =>
           r = {| status := 500; json := error (VStr (lit "Error fetching LeetCode stats")) |}
           /\ console s' = console s ++ [LogFailure (lit "LeetCode API Error:") TypeError]
       | Rejected e =>
           r = {| status := 500; json := error (VStr (lit "Error fetching LeetCode stats")) |}
           /\ console s' = console s ++ [LogFailure (lit "LeetCode API Error:") e]
       end.
Proof.
  unfold LeetCode.stats_by_username, LeetCode.fetch_and_format, LeetCode.on_error. run.
  destruct (leetcode_graphql w _) as [[d|]|e]; simpl;
    eexists; eexists; (split; [reflexivity|]); repeat split.
Qed.

(** X12: when the GitHub username endpoint falls back to synthesis it
    writes exactly two console lines: the announcement of the fetch and
    one failure line carrying the exception of the first step that
    failed (the profile call, else the repository call, else the
    reading of the repository body, else that of the profile body).
    When nothing fails it writes the announcement only. *)
Theorem github_username_console (toUpperCase : jsstring -> jsstring) (username : jsstring)
    (w : world) (s : state) :
  let announcement := Log (lit "Fetching GitHub stats for " ++ username) in
  let failed e :=
    [announcement; LogFailure (lit "GitHub API failed, using mock data:") e] in
  console (snd (GitHub.stats_by_username toUpperCase username w s))
  = console s
    ++ match github_users w (GitHub.user_request (GITHUB_TOKEN w) username) with
       | Rejected e => failed e
       | Fulfilled user_body =>
           match github_repos w (GitHub.repos_request (GITHUB_TOKEN w) username) with
           | Rejected e => failed e
           | Fulfilled Malformed => failed TypeError
           | Fulfilled (WellFormed _) =>
               match user_body with
               | Malformed => failed TypeError
               | WellFormed _ => [announcement]
               end
           end
       end.
Proof.
  intros announcement failed.
  unfold GitHub.stats_by_username, GitHub.fetchReal. run.
  case_upstream; try rewrite mockStats_run; simpl; rewrite <- ?app_assoc; reflexivity.
Qed.

(** ** The profile lookups with a binding *)

Lemma first_binding_find (label : jsstring) (doc : profile_doc) (b : platform_binding) :
  first_binding label doc b ->
  find (fun platform => jsstring_eqb (pb_name platform) label) (platforms doc) = Some b.
Proof.
  intros (before & after & -> & Hb & Hn). apply find_first_match.
  - now apply jsstring_eqb_eq.
  - intros x Hx. apply jsstring_eqb_neq. now apply Hn.
Qed.

(** X13: for a user whose profile binds LeetCode, the LeetCode profile
    lookup is the username lookup for the username of the first
    LeetCode binding: same response, same request, same console
    lines. *)
Theorem leetcode_profile_is_username_lookup (req : incoming) (w : world) (s : state)
    (doc : profile_doc) (b : platform_binding) :
  Profile_findOne w (req_user_id req) = Fulfilled (Some doc) ->
  first_binding (lit "LeetCode") doc b ->
  getByProfile OnLeetCode req w s = LeetCode.stats_by_username (pb_username b) w s.
Proof.
  intros Hp Hb. apply first_binding_find in Hb.
  unfold getByProfile, LeetCode.stats_by_profile, LeetCode.stats_by_username. run.
  rewrite Hp, Hb. reflexivity.
Qed.

Lemma leetcode_profile_is_username_lookup_example :
  getByProfile OnLeetCode sample_request (profile_world 0) start
  = LeetCode.stats_by_username (lit "alice") (profile_world 0) start.
Proof.
  apply (leetcode_profile_is_username_lookup sample_request (profile_world 0) start
           octocat_profile {| pb_name := lit "LeetCode"; pb_username := lit "alice" |} eq_refl).
  exists [{| pb_name := lit "Medium"; pb_username := lit "octo" |};
          {| pb_name := lit "GitHub"; pb_username := lit "https://github.com/octocat/" |}], [].
  split; [reflexivity|]. split; [reflexivity|].
  intros x [<-|[<-|[]]]; discriminate.
Defined.

(** X14: for a user whose profile binds GitHub, the GitHub profile
    lookup sends one request, to the server's own username route for
    the bound username and without timeout; when the server answers it
    with what its username endpoint returns, the profile lookup returns
    that very body with status 200, so a [success: true] envelope
    whether GitHub was reachable or not. *)
Theorem github_profile_forwards (toUpperCase : jsstring -> jsstring) (req : incoming)
    (w : world) (s s0 : state) (doc : profile_doc) (b : platform_binding) :
  let username := GitHub.bound_username (pb_username b) in
  let forwarded := GitHub.forward_request (req_protocol req) (req_host req) username in
  Profile_findOne w (req_user_id req) = Fulfilled (Some doc) ->
  first_binding (lit "GitHub") doc b ->
  own_server w forwarded = Fulfilled (username_route_body toUpperCase username w s0) ->
  exists record s',
    getByProfile OnGitHub req w s = (Ok {| status := 200; json := success record |}, s')
    /\ fst (GitHub.stats_by_username toUpperCase username w s0)
       = Ok {| status := 200; json := success record |}
    /\ requests_of (getByProfile OnGitHub req) w s = [forwarded]
    /\ url forwarded
       = req_protocol req ++ lit "://" ++ req_host req ++ lit "/api/github/stats/" ++ username
    /\ timeout forwarded = None.
Proof.
  intros username forwarded Hp Hb Ho. apply first_binding_find in Hb.
  destruct (github_username_run toUpperCase username w s0) as (record & s1 & E & _).
  assert (B : username_route_body toUpperCase username w s0 = success record)
    by (unfold username_route_body; now rewrite E).
  rewrite B in Ho.
  exists record. eexists. split; [|split; [|split; [|split]]].
  - unfold getByProfile, GitHub.stats_by_profile. run. rewrite Hp, Hb.
    fold username. fold forwarded. rewrite Ho. reflexivity.
  - now rewrite E.
  - unfold requests_of, getByProfile, GitHub.stats_by_profile. run. rewrite Hp, Hb.
    fold username. fold forwarded. rewrite Ho. simpl. apply skipn_length_app.
  - reflexivity.
  - reflexivity.
Qed.

Lemma github_profile_forwards_example :
  exists record s',
    getByProfile OnGitHub sample_request (profile_world 0) start
    = (Ok {| status := 200; json := success record |}, s')
    /\ fst (GitHub.stats_by_username asciiUpper (lit "octocat") (profile_world 0) start)
       = Ok {| status := 200; json := success record |}
    /\ requests_of (getByProfile OnGitHub sample_request) (profile_world 0) start
       = [GitHub.forward_request (lit "https") (lit "devlink.example") (lit "octocat")]
    /\ url (GitHub.forward_request (lit "https") (lit "devlink.example") (lit "octocat"))
       = lit "https://devlink.example/api/github/stats/octocat"
    /\ timeout (GitHub.forward_request (lit "https") (lit "devlink.example") (lit "octocat"))
       = None.
Proof.
  apply (github_profile_forwards asciiUpper sample_request (profile_world 0) start start
           octocat_profile
           {| pb_name := lit "GitHub"; pb_username := lit "https://github.com/octocat/" |}
           eq_refl).
  - exists [{| pb_name := lit "Medium"; pb_username := lit "octo" |}],
           [{| pb_name := lit "LeetCode"; pb_username := lit "alice" |}].
    split; [reflexivity|]. split; [reflexivity|].
    intros x [<-|[]]; discriminate.
  - vm_compute. reflexivity.
Defined.

(** ** The username stored in a GitHub binding *)

Lemma starts_with_app (p r : jsstring) : starts_with p (p ++ r) = true.
Proof. induction p as [|x p IH]; simpl; [reflexivity|]. now rewrite N.eqb_refl. Qed.

Lemma starts_with_inv (p s : jsstring) :
  starts_with p s = true -> exists r, s = p ++ r.
Proof.
  revert s. induction p as [|x p IH]; intros s H; simpl in *.
  - now exists s.
  - destruct s as [|y s]; [discriminate|].
    apply andb_true_iff in H as [Hx Hr]. apply N.eqb_eq in Hx. subst y.
    destruct (IH s Hr) as [r ->]. now exists r.
Qed.

Lemma after_first_some (sep s rest : jsstring) :
  after_first sep s = Some rest -> exists pre, s = pre ++ sep ++ rest.
Proof.
  induction s as [|c s IH]; simpl.
  - destruct (starts_with sep []) eqn:E; [|discriminate].
    intros H. injection H as <-. apply starts_with_inv in E as [r E].
    symmetry in E. apply app_eq_nil in E as [-> ->]. now exists [].
  - destruct (starts_with sep (c :: s)) eqn:E.
    + intros H. injection H as <-. apply starts_with_inv in E as [r E].
      exists []. simpl. rewrite E. now rewrite skipn_length_app.
    + intros H. destruct (IH H) as [pre ->]. now exists (c :: pre).
Qed.

(** X15: a stored GitHub username that does not contain [github.com/]
    is used as it is. *)
Theorem bound_username_plain (stored : jsstring) :
  (forall pre post, stored <> pre ++ lit "github.com/" ++ post) ->
  GitHub.bound_username stored = stored.
Proof.
  intros H. unfold GitHub.bound_username.
  destruct (after_first (lit "github.com/") stored) as [rest|] eqn:E; [|reflexivity].
  apply after_first_some in E as [pre E]. exfalso. exact (H pre rest E).
Qed.

Lemma bound_username_plain_example :
  GitHub.bound_username (lit "octocat") = lit "octocat".
Proof.
  apply bound_username_plain. intros pre post E.
  apply (f_equal (@length N)) in E. rewrite !length_app in E. simpl in E. lia.
Defined.

Lemma after_first_hit (sep s : jsstring) :
  starts_with sep s = true -> after_first sep s = Some (skipn (length sep) s).
Proof. intros H. destruct s; simpl; now rewrite H. Qed.

Lemma after_first_prefix (pre rest : jsstring) :
  Forall (fun c => c <> 103%N) pre ->
  after_first (lit "github.com/") (pre ++ lit "github.com/" ++ rest) = Some rest.
Proof.
  induction 1 as [|c pre Hc _ IH].
  - rewrite app_nil_l. rewrite after_first_hit by apply starts_with_app.
    apply f_equal. apply skipn_length_app.
  - change ((c :: pre) ++ lit "github.com/" ++ rest)
      with (c :: (pre ++ lit "github.com/" ++ rest)).
    cbn [after_first].
    replace (starts_with (lit "github.com/") (c :: pre ++ lit "github.com/" ++ rest))
      with false; [exact IH|].
    symmetry. change (lit "github.com/") with (103%N :: lit "ithub.com/") at 1.
    cbn [starts_with]. apply andb_false_iff. left. apply N.eqb_neq. congruence.
Qed.

Lemma starts_with_length (p s : jsstring) :
  starts_with p s = true -> (length p <= length s)%nat.
Proof.
  intros H. apply starts_with_inv in H as [r ->]. rewrite length_app. lia.
Qed.

(** A string without a dot, followed by at most four characters, does
    not start with [github.com/]: the dot would have to fall into the
    first part. *)
Lemma no_separator_at_head (u tail : jsstring) :
  Forall (fun c => c <> 46%N) u -> (length tail <= 4)%nat ->
  starts_with (lit "github.com/") (u ++ tail) = false.
Proof.
  intros Hu Ht. destruct (starts_with (lit "github.com/") (u ++ tail)) eqn:E; [|reflexivity].
  exfalso. pose proof (starts_with_length _ _ E) as L.
  apply starts_with_inv in E as [r E].
  assert (D : nth_error (u ++ tail) 6 = Some 46%N) by (rewrite E; reflexivity).
  rewrite length_app in L. change (length (lit "github.com/")) with 11%nat in L.
  rewrite nth_error_app1 in D by lia.
  apply nth_error_In in D. rewrite Forall_forall in Hu. now apply (Hu _ D).
Qed.

Lemma before_first_short (tail : jsstring) :
  (length tail <= 4)%nat -> before_first (lit "github.com/") tail = tail.
Proof.
  induction tail as [|c r IH]; intros H.
  - reflexivity.
  - cbn [before_first].
    pose proof (no_separator_at_head [] (c :: r) (Forall_nil _) H) as E.
    rewrite app_nil_l in E. rewrite E.
    rewrite IH by (simpl in H; lia). reflexivity.
Qed.

Lemma before_first_without_dot (u tail : jsstring) :
  Forall (fun c => c <> 46%N) u -> (length tail <= 4)%nat ->
  before_first (lit "github.com/") (u ++ tail) = u ++ tail.
Proof.
  intros Hu Ht. induction Hu as [|c u Hc Hu IH].
  - now apply before_first_short.
  - change ((c :: u) ++ tail) with (c :: (u ++ tail)). cbn [before_first].
    assert (E : starts_with (lit "github.com/") ((c :: u) ++ tail) = false)
      by (apply no_separator_at_head; [now constructor | exact Ht]).
    change ((c :: u) ++ tail) with (c :: (u ++ tail)) in E. rewrite E. now rewrite IH.
Qed.

Lemma strip_trailing_slash_spec (s : jsstring) :
  strip_trailing_slash s
  = match rev s with
    | c :: r => if (c =? 47)%N then rev r else s
    | [] => s
    end.
Proof.
  unfold strip_trailing_slash. destruct (rev s) as [|c r]; [reflexivity|].
  destruct c as [|p]; [reflexivity|].
  do 6 (try (destruct p as [p|p|]; try reflexivity)).
Qed.

Lemma strip_trailing_slash_none (u : jsstring) :
  Forall (fun c => c <> 47%N) u -> strip_trailing_slash u = u.
Proof.
  intros H. rewrite strip_trailing_slash_spec.
  destruct (rev u) as [|c r] eqn:E; [reflexivity|].
  destruct (c =? 47)%N eqn:C; [|reflexivity].
  apply N.eqb_eq in C. subst c. exfalso.
  rewrite Forall_forall in H. apply (H 47%N); [|reflexivity].
  apply in_rev. rewrite E. now left.
Qed.

Lemma strip_trailing_slash_one (u : jsstring) :
  strip_trailing_slash (u ++ lit "/") = u.
Proof.
  rewrite strip_trailing_slash_spec. rewrite rev_app_distr. simpl.
  apply rev_involutive.
Qed.

(** X16: a stored GitHub profile URL resolves to the bare username.
    For a username without dot or slash, stored behind [github.com/]
    (whatever precedes it, as long as it has no letter g, as in
    [https://] or [https://www.]) and with or without one trailing
    slash, the profile lookup forwards the username alone. *)
Theorem bound_username_of_url (pre username : jsstring) :
  Forall (fun c => c <> 103%N) pre ->
  Forall (fun c => c <> 46%N /\ c <> 47%N) username ->
  GitHub.bound_username (pre ++ lit "github.com/" ++ username) = username
  /\ GitHub.bound_username (pre ++ lit "github.com/" ++ username ++ lit "/") = username.
Proof.
  intros Hp Hu.
  assert (Hdot : Forall (fun c => c <> 46%N) username)
    by (eapply Forall_impl; [|exact Hu]; simpl; tauto).
  assert (Hslash : Forall (fun c => c <> 47%N) username)
    by (eapply Forall_impl; [|exact Hu]; simpl; tauto).
  unfold GitHub.bound_username. split.
  - rewrite after_first_prefix by exact Hp.
    rewrite <- (app_nil_r username) at 1.
    rewrite before_first_without_dot by (auto; simpl; lia).
    rewrite app_nil_r. now apply strip_trailing_slash_none.
  - rewrite after_first_prefix by exact Hp.
    rewrite before_first_without_dot by (auto; simpl; lia).
    apply strip_trailing_slash_one.
Qed.

Lemma bound_username_of_url_example :
  GitHub.bound_username (lit "https://www.github.com/octo-cat") = lit "octo-cat"
  /\ GitHub.bound_username (lit "https://www.github.com/octo-cat/") = lit "octo-cat".
Proof.
  apply (bound_username_of_url (lit "https://www.") (lit "octo-cat"));
    repeat constructor; discriminate.
Defined.

(** Where the resolution does something else: a path behind the
    username stays, a username ending in [github.com] is cut, and the
    bare host gives the empty username. *)
Lemma bound_username_edge_cases :
  GitHub.bound_username (lit "https://github.com/octocat/hello-world")
  = lit "octocat/hello-world"
  /\ GitHub.bound_username (lit "https://github.com/mygithub.com/") = lit "my"
  /\ GitHub.bound_username (lit "github.com/") = [].
Proof. repeat split. Qed.

(** ** The profile lookups: every outcome *)

Lemma truthy_or_else (a b : value) : truthy b = true -> truthy (or_else a b) = true.
Proof. intros H. unfold or_else. destruct (truthy a) eqn:E; assumption. Qed.

Lemma skipn_length_self {A : Type} (l : list A) : skipn (length l) l = [].
Proof. induction l; simpl; auto. Qed.

(** X17: a profile lookup never throws.  It answers 404 exactly when
    the user has no profile or no binding for the platform, 500 or 200
    otherwise; every answer other than 200 is a [success: false]
    envelope with a non-empty error; and when the profile store itself
    fails, the answer is 500, no request has been sent and the failure
    is on the console. *)
Theorem getByProfile_answers (p : platform) (req : incoming) (w : world) (s : state) :
  exists r s',
    getByProfile p req w s = (Ok r, s')
    /\ (status r = 200 \/ status r = 404 \/ status r = 500)
    /\ (status r = 404 <-> no_binding p (req_user_id req) w = true)
    /\ (status r <> 200 ->
        get "success" (json r) = VBool false /\ truthy (get "error" (json r)) = true)
    /\ (forall e, Profile_findOne w (req_user_id req) = Rejected e ->
          status r = 500
          /\ requests_of (getByProfile p req) w s = []
          /\ exists line, console s' = console s ++ [LogFailure line e]).
Proof.
  unfold requests_of, no_binding, getByProfile.
  destruct p; simpl;
    unfold GitHub.stats_by_profile, LeetCode.stats_by_profile, LeetCode.fetch_and_format,
      LeetCode.on_error; run;
    destruct (Profile_findOne w (req_user_id req)) as [[doc|]|e]; simpl;
    try destruct (find _ (platforms doc)); simpl;
    try destruct (own_server w _); simpl;
    try destruct (leetcode_graphql w _) as [[d|]|e']; simpl;
    eexists; eexists; (split; [reflexivity|]); simpl.
  all: split; [auto|].
  all: split; [split; intros H; solve [reflexivity | discriminate H]|].
  all: split;
    [intros H;
     first [ exfalso; apply H; reflexivity
           | split; [reflexivity
                    | first [reflexivity | apply truthy_or_else; reflexivity]] ]|].
  all: intros e0 E; try discriminate E; injection E as <-.
  all: split; [reflexivity|]; split; [apply skipn_length_self|]; eexists; reflexivity.
Qed.

(** ** LeetCode: what the record always carries *)

Lemma or_else_defined (a b : value) : b <> VUndefined -> or_else a b <> VUndefined.
Proof.
  intros H. unfold or_else. destruct (truthy a) eqn:E; [|exact H].
  intros ->. discriminate E.
Qed.

Lemma json_keys_in (k : jsstring) (v : value) (fs : list (jsstring * value)) :
  In (k, v) fs -> v <> VUndefined -> In k (json_keys (VObj fs)).
Proof.
  intros I D. simpl. apply in_map_iff. exists (k, v). split; [reflexivity|].
  apply filter_In. split; [exact I|]. simpl. destruct v; try reflexivity. contradiction.
Qed.

Lemma json_keys_cons_defined (k : jsstring) (v : value) (fs : list (jsstring * value)) :
  v <> VUndefined -> json_keys (VObj ((k, v) :: fs)) = k :: json_keys (VObj fs).
Proof. intros H. destruct v; try reflexivity. contradiction. Qed.

Lemma json_keys_cons_undefined (k : jsstring) (fs : list (jsstring * value)) :
  json_keys (VObj ((k, VUndefined) :: fs)) = json_keys (VObj fs).
Proof. reflexivity. Qed.

(** X18: whatever upstream sends, the LeetCode record has its sixteen
    fields, and the twelve the handler defaults (the four solved
    counts, the three contest numbers, the contest badge, badges,
    percentages, recent submissions and top tags) are never undefined,
    so they are always part of the response.  The other four
    ([username], [ranking], [reputation], [realName]) are passed
    through without default: for a username LeetCode does not know
    they are missing from the response, which still says [success:
    true] with every count at 0. *)
Theorem leetcode_record_fields (userData : lc_data) :
  let record := LeetCode.leetcodeStats userData in
  keys record
  = map lit ["username"; "ranking"; "reputation"; "realName"]%string ++ leetcode_defaulted
  /\ incl leetcode_defaulted (json_keys record)
  /\ (matchedUser userData = None ->
      json_keys record = leetcode_defaulted
      /\ get "totalSolved" record = VNum 0
      /\ get "easySolved" record = VNum 0
      /\ get "mediumSolved" record = VNum 0
      /\ get "hardSolved" record = VNum 0
      /\ get "badges" record = VArr []
      /\ get "beatsPercentage" record = VArr []
      /\ get "topTags" record = VArr []).
Proof.
  intros record. split; [reflexivity|]. split.
  - assert (D : forall k v, In (k, v) (match record with VObj fs => fs | _ => [] end) ->
                            v <> VUndefined -> In k (json_keys record))
      by (intros k v; apply json_keys_in).
    intros k Hk. unfold leetcode_defaulted in Hk. simpl in Hk.
    repeat (destruct Hk as [<-|Hk];
            [eapply D;
             [simpl; repeat (first [left; reflexivity | right])
             | first [apply or_else_defined; discriminate | discriminate]]|]).
    contradiction.
  - intros N.
    assert (A : LeetCode.acSubmissions userData = None)
      by (unfold LeetCode.acSubmissions; now rewrite N).
    assert (T : forall t, LeetCode.tier userData t = [])
      by (intros t; unfold LeetCode.tier; now rewrite N).
    split; [|subst record; unfold LeetCode.leetcodeStats, LeetCode.topTags;
             rewrite ?N, ?A, ?T; repeat split].
    subst record. unfold LeetCode.leetcodeStats. cbv zeta. rewrite N.
    cbn [opt_get opt_bind].
    rewrite !json_keys_cons_undefined.
    repeat (rewrite json_keys_cons_defined
              by first [ apply or_else_defined; discriminate | discriminate ]).
    reflexivity.
Qed.

Lemma leetcode_record_fields_example :
  json_keys (LeetCode.leetcodeStats nobody) = leetcode_defaulted
  /\ get "totalSolved" (LeetCode.leetcodeStats nobody) = VNum 0.
Proof.
  destruct (leetcode_record_fields nobody) as (_ & _ & H).
  destruct (H eq_refl) as (K & T & _). split; [exact K | exact T].
Defined.

(** ** Where the GitHub token goes *)

Lemma api_headers_authorization (token : option jsstring) :
  header_of (lit "Authorization") (GitHub.api_headers token)
  = match token with
    | Some (c :: t) => Some (lit "token " ++ c :: t)
    | _ => None
    end.
Proof. destruct token as [[|c t]|]; reflexivity. Qed.

Lemma profile_requests_without_headers (p : platform) (req : incoming)
    (w : world) (s : state) :
  Forall (fun r => headers r = []) (requests_of (getByProfile p req) w s).
Proof.
  unfold requests_of, getByProfile.
  destruct p; simpl;
    unfold GitHub.stats_by_profile, LeetCode.stats_by_profile, LeetCode.fetch_and_format,
      LeetCode.on_error; run;
    destruct (Profile_findOne w (req_user_id req)) as [[doc|]|e]; simpl;
    try destruct (find _ (platforms doc)); simpl;
    try destruct (own_server w _); simpl;
    try destruct (leetcode_graphql w _) as [[d|]|e']; simpl;
    first [ rewrite skipn_length_app; repeat constructor
          | rewrite skipn_length_self; constructor ].
Qed.

(** X19: the configured GitHub token leaves the server only towards
    [https://api.github.com/].  When [GITHUB_TOKEN] is a non-empty
    string, each request of the GitHub username endpoint carries
    [Authorization: token <GITHUB_TOKEN>]; when it is unset or empty,
    none does; and the LeetCode request and the requests of the
    profile lookups never carry an Authorization header. *)
Theorem token_only_to_github (toUpperCase : jsstring -> jsstring) (username : jsstring)
    (req : incoming) (w : world) (s : state) :
  Forall
    (fun r =>
       starts_with (lit "https://api.github.com/") (url r) = true
       /\ header "Authorization" r
          = match GITHUB_TOKEN w with
            | Some (c :: t) => Some (lit "token " ++ c :: t)
            | _ => None
            end)
    (requests_of (getByUsername toUpperCase OnGitHub username) w s)
  /\ Forall (fun r => header "Authorization" r = None)
       (requests_of (getByUsername toUpperCase OnLeetCode username) w s)
  /\ forall p,
       Forall (fun r => header "Authorization" r = None)
         (requests_of (getByProfile p req) w s).
Proof.
  split; [|split].
  - simpl getByUsername. rewrite github_requests.
    destruct (github_users w _); repeat constructor; apply api_headers_authorization.
  - simpl getByUsername. rewrite leetcode_requests. repeat constructor.
  - intros p. eapply Forall_impl; [|apply profile_requests_without_headers].
    intros r H. unfold header. now rewrite H.
Qed.

(** ** The dashboard panels *)

Lemma panel_fetch (p : Client.panel) (doc : profile_doc) (b : platform_binding)
    (server : Client.api) :
  first_binding (Client.platform_label p) doc b ->
  Client.effect p (fresh_context doc) server Client.initial
  = match server (Client.route p ++ pb_username b) with
    | Fulfilled data =>
        if truthy data && truthy (get "success" data)
        then {| Client.isLoading := false; Client.error := VNull;
                Client.stats := get "data" data; Client.errors_logged := [] |}
        else {| Client.isLoading := false; Client.error := VStr (Client.load_failure p);
                Client.stats := VNull; Client.errors_logged := [] |}
    | Rejected err =>
        {| Client.isLoading := false; Client.error := VStr (Client.connect_failure p);
           Client.stats := VNull; Client.errors_logged := [err] |}
    end.
Proof.
  intros Hb. apply first_binding_find in Hb.
  unfold Client.effect, Client.fetchStats, fresh_context. simpl. rewrite Hb. reflexivity.
Qed.

(** *** The wire form *)

Lemma wire_obj (fields : list (jsstring * value)) :
  wire (VObj fields) = VObj (wire_fields fields).
Proof. reflexivity. Qed.

Lemma wire_fields_cons (k : jsstring) (v : value) (fields : list (jsstring * value)) :
  wire_fields ((k, v) :: fields)
  = match v with
    | VUndefined => wire_fields fields
    | _ => (k, wire v) :: wire_fields fields
    end.
Proof. destruct v; reflexivity. Qed.

Lemma keys_wire (v : value) : keys (wire v) = json_keys v.
Proof.
  destruct v as [| | | |x| | |fields]; try reflexivity.
  - destruct x; reflexivity.
  - rewrite wire_obj. simpl keys. simpl json_keys.
    induction fields as [|[k v] r IH]; [reflexivity|].
    rewrite wire_fields_cons. destruct v; simpl; now rewrite IH.
Qed.

Lemma wire_obj_plain (fields : list (jsstring * value)) :
  Forall (fun kv => plain (snd kv)) fields -> wire (VObj fields) = VObj fields.
Proof.
  intros H. rewrite wire_obj. f_equal.
  induction H as [|[k v] r [Hd Hw] _ IH]; [reflexivity|].
  rewrite wire_fields_cons. simpl in Hd, Hw.
  destruct v; try contradiction; rewrite IH; now rewrite Hw.
Qed.

Lemma wire_arr_plain (l : list value) : Forall plain l -> wire (VArr l) = VArr l.
Proof.
  intros H. simpl. f_equal.
  induction H as [|v r [Hd Hw] _ IH]; [reflexivity|].
  simpl. rewrite IH. destruct v; try contradiction; now rewrite Hw.
Qed.

Lemma plain_obj (fields : list (jsstring * value)) :
  Forall (fun kv => plain (snd kv)) fields -> plain (VObj fields).
Proof. intros H. split; [discriminate | now apply wire_obj_plain]. Qed.

Lemma plain_arr (l : list value) : Forall plain l -> plain (VArr l).
Proof. intros H. split; [discriminate | now apply wire_arr_plain]. Qed.

Lemma plain_str (s : jsstring) : plain (VStr s).
Proof. split; [discriminate | reflexivity]. Qed.

Lemma plain_num (n : Z) : plain (VNum n).
Proof. split; [discriminate | reflexivity]. Qed.

Lemma plain_null : plain VNull.
Proof. split; [discriminate | reflexivity]. Qed.

Lemma wire_success (record : value) :
  record <> VUndefined -> wire (success record) = success (wire record).
Proof.
  intros H. unfold success. rewrite wire_obj, !wire_fields_cons.
  destruct record; try contradiction; reflexivity.
Qed.

Ltac fields :=
  repeat first [apply Forall_nil | apply Forall_cons];
  lazymatch goal with |- plain (snd (_, ?v)) => change (plain v) end.

Ltac literal :=
  try lazymatch goal with
      | |- plain (VStr _) => apply plain_str
      | |- plain (VNum _) => apply plain_num
      | |- plain VNull => apply plain_null
      end.

Lemma plain_repo_language (username : jsstring) :
  plain
    (or_else
       (opt_get
          (index (GitHub.selectedLanguages username)
             (random username 0 (Z.of_nat (length (GitHub.selectedLanguages username)) - 1)))
          (get "name"))
       (VStr (lit "JavaScript"))).
Proof.
  destruct (index (GitHub.selectedLanguages username) _) as [entry|] eqn:I;
    [|apply plain_str].
  unfold index in I. destruct (_ <? 0); [discriminate|].
  apply nth_error_In in I. unfold GitHub.selectedLanguages in I.
  apply in_map_iff in I as (lang & <- & _).
  change (opt_get (Some (VObj [(lit "name", VStr lang);
                               (lit "count", VNum (random username 1 15))])) (get "name"))
    with (VStr lang).
  unfold or_else. destruct (truthy (VStr lang)); apply plain_str.
Qed.

Lemma plain_location (username : jsstring) :
  plain (opt_get (index GitHub.locations (random username 0 4)) VStr).
Proof.
  pose proof (location_defined username) as D.
  destruct (index GitHub.locations (random username 0 4)); simpl in *.
  - apply plain_str.
  - contradiction.
Qed.

Lemma plain_synthesized (toUpperCase : jsstring -> jsstring) (username : jsstring)
    (times : nat -> Z) :
  plain (synthesized toUpperCase username times).
Proof.
  unfold synthesized, GitHub.mockStatsAt. apply plain_obj. fields; literal.
  - destruct (truthy _); [apply plain_str | apply plain_null].
  - destruct (truthy _); [apply plain_str | apply plain_null].
  - apply plain_location.
  - apply plain_arr. unfold GitHub.selectedLanguages. apply Forall_map, Forall_forall.
    intros lang _. apply plain_obj. fields; literal.
  - apply plain_arr. apply repos_at_Forall. intros name now _.
    unfold GitHub.mockRepoAt. apply plain_obj. fields; literal.
    apply plain_repo_language.
Qed.

Ltac split_plain :=
  repeat match goal with
         | H : Forall _ (_ :: _) |- _ => inversion H; subst; clear H
         end.

Lemma plain_realStats (userData : gh_user) (repos : list gh_repo) (now : Z) :
  plain_user userData -> Forall plain_repo repos ->
  plain (GitHub.realStats userData repos now).
Proof.
  intros Hu Hr. unfold plain_user in Hu. split_plain.
  unfold GitHub.realStats. apply plain_obj. fields; literal; try assumption.
  - apply plain_arr. apply Forall_forall. intros entry He.
    unfold GitHub.languageStats in He. apply slice0_incl in He.
    eapply Permutation_in in He;
      [|symmetry; apply (sort_perm (fun v => GitHub.number_of (get "count" v)))].
    apply in_map_iff in He as (l & <- & _).
    apply plain_obj. fields; literal.
  - apply plain_arr. unfold GitHub.realTopRepos. apply Forall_map, Forall_forall.
    intros repo Hrepo. apply slice0_incl in Hrepo.
    eapply Permutation_in in Hrepo; [|symmetry; apply (sort_perm stargazers_count)].
    rewrite Forall_forall in Hr. specialize (Hr _ Hrepo). unfold plain_repo in Hr.
    split_plain.
    apply plain_obj. fields; literal; try assumption.
    unfold GitHub.nullable. destruct (language repo); [apply plain_str | apply plain_null].
Qed.

(** X20: the GitHub panel, opened for a profile with a GitHub binding
    and no statistics in the context, calls
    [/api/github/stats/<stored username>]; when the server answers
    with what its username endpoint returns, the panel ends up showing
    the record of that answer as it arrives, real or synthesized: it
    shows neither of its two error messages, whatever happens
    upstream.  The record arrives with the fields that are not
    undefined; it arrives unchanged when it is synthesized, and when it
    is real and the upstream payload lacks no property. *)
Theorem github_panel_shows_stats (toUpperCase : jsstring -> jsstring) (doc : profile_doc)
    (b : platform_binding) (server : Client.api) (w : world) (s : state) :
  first_binding (lit "GitHub") doc b ->
  server (lit "/api/github/stats/" ++ pb_username b)
    = delivered (fst (GitHub.stats_by_username toUpperCase (pb_username b) w s)) ->
  exists record,
    fst (GitHub.stats_by_username toUpperCase (pb_username b) w s)
    = Ok {| status := 200; json := success record |}
    /\ Client.render (fresh_context doc)
         (Client.effect Client.GithubStats (fresh_context doc) server Client.initial)
       = Client.StatsView (wire record)
    /\ keys (wire record) = json_keys record
    /\ (upstream_ok OnGitHub (pb_username b) w = false -> wire record = record)
    /\ (forall userData repos,
          github_users w (GitHub.user_request (GITHUB_TOKEN w) (pb_username b))
            = Fulfilled (WellFormed userData) ->
          github_repos w (GitHub.repos_request (GITHUB_TOKEN w) (pb_username b))
            = Fulfilled (WellFormed repos) ->
          plain_user userData -> Forall plain_repo repos -> wire record = record).
Proof.
  intros Hb Hs.
  destruct (github_username_run toUpperCase (pb_username b) w s) as (record & s' & E & D).
  exists record. split; [now rewrite E|].
  assert (O : exists fields, record = VObj fields)
    by (destruct record; try discriminate D; eexists; reflexivity).
  destruct O as [fields ->].
  split; [|split; [apply keys_wire|split]].
  - rewrite (panel_fetch Client.GithubStats doc b server Hb).
    change (Client.route Client.GithubStats) with (lit "/api/github/stats/").
    rewrite Hs, E. cbn [fst delivered status json].
    change ((200 <=? 200) && (200 <? 300)) with true. cbv iota.
    rewrite wire_success by discriminate. rewrite wire_obj.
    reflexivity.
  - intros U. destruct (github_fallback toUpperCase (pb_username b) w s U) as [s1 F].
    rewrite F in E. injection E as E _. rewrite <- E.
    apply plain_synthesized.
  - intros userData repos Hu Hr Pu Pr.
    destruct (github_real toUpperCase (pb_username b) w s userData repos Hu Hr) as [s1 F].
    rewrite F in E. injection E as E _. rewrite <- E.
    now apply plain_realStats.
Qed.

Lemma leetcode_unknown_user_keys (userData : lc_data) :
  matchedUser userData = None ->
  json_keys (LeetCode.leetcodeStats userData) = leetcode_defaulted.
Proof.
  intros N. unfold LeetCode.leetcodeStats. cbv zeta. rewrite N.
  cbn [opt_get opt_bind].
  rewrite !json_keys_cons_undefined.
  repeat (rewrite json_keys_cons_defined
            by first [ apply or_else_defined; discriminate | discriminate ]).
  reflexivity.
Qed.

(** X21: the LeetCode panel, under the same conditions, shows the
    normalised record as it arrives when the upstream call gave a
    readable body, and "Error connecting to LeetCode API" when it did
    not; its other message, "Failed to load LeetCode stats", is never
    shown against this server.  The record arrives with the fields
    that are not undefined: the twelve defaulted ones only, for a
    username LeetCode does not know. *)
Theorem leetcode_panel_outcome (doc : profile_doc) (b : platform_binding)
    (server : Client.api) (w : world) (s : state) :
  first_binding (lit "LeetCode") doc b ->
  server (lit "/api/leetcode/stats/" ++ pb_username b)
    = delivered (fst (LeetCode.stats_by_username (pb_username b) w s)) ->
  Client.render (fresh_context doc)
    (Client.effect Client.LeetcodeStats (fresh_context doc) server Client.initial)
  = match leetcode_graphql w (LeetCode.graphql_request (pb_username b)) with
    | Fulfilled (WellFormed userData) =>
        Client.StatsView (wire (LeetCode.leetcodeStats userData))
    | _ => Client.ErrorPanel (VStr (lit "Error connecting to LeetCode API"))
    end
  /\ forall userData,
       keys (wire (LeetCode.leetcodeStats userData))
       = json_keys (LeetCode.leetcodeStats userData)
       /\ (matchedUser userData = None ->
           keys (wire (LeetCode.leetcodeStats userData)) = leetcode_defaulted).
Proof.
  intros Hb Hs. split.
  - rewrite (panel_fetch Client.LeetcodeStats doc b server Hb).
    change (Client.route Client.LeetcodeStats) with (lit "/api/leetcode/stats/").
    rewrite Hs. clear Hs.
    unfold LeetCode.stats_by_username, LeetCode.fetch_and_format, LeetCode.on_error. run.
    destruct (leetcode_graphql w _) as [[d|]|e]; [|reflexivity|reflexivity].
    cbn [fst delivered status json].
    change ((200 <=? 200) && (200 <? 300)) with true. cbv iota.
    rewrite wire_success by discriminate.
    unfold LeetCode.leetcodeStats. rewrite wire_obj. reflexivity.
  - intros userData. split; [apply keys_wire|].
    intros N. rewrite keys_wire. now apply leetcode_unknown_user_keys.
Qed.

(** X22: a panel does not call the server when the context already
    holds statistics (it shows those) or when the profile has no
    binding for its platform (it shows the placeholder). *)
Theorem panel_without_fetch (p : Client.panel) (ctx : Client.context)
    (server1 server2 : Client.api) :
  Client.loading ctx = false ->
  (truthy (Client.cachedStats ctx) = true ->
     Client.effect p ctx server1 Client.initial = Client.effect p ctx server2 Client.initial
     /\ Client.render ctx (Client.effect p ctx server1 Client.initial)
        = Client.StatsView (Client.cachedStats ctx))
  /\ (truthy (Client.cachedStats ctx) = false ->
      (forall doc, Client.profile ctx = Some doc ->
         forall b, In b (platforms doc) -> pb_name b <> Client.platform_label p) ->
      Client.effect p ctx server1 Client.initial = Client.initial
      /\ Client.render ctx (Client.effect p ctx server1 Client.initial) = Client.Placeholder).
Proof.
  intros L. split.
  - intros T. unfold Client.effect, Client.render.
    destruct (Client.profile ctx); rewrite T; simpl; rewrite L, T; split; reflexivity.
  - intros T N. unfold Client.effect, Client.fetchStats, Client.render.
    destruct (Client.profile ctx) as [doc|] eqn:P; rewrite T; simpl.
    + rewrite find_no_match.
      * simpl. rewrite L. split; reflexivity.
      * intros x Hx. apply jsstring_eqb_neq. exact (N doc eq_refl x Hx).
    + rewrite L. split; reflexivity.
Qed.

(** ** Instances and further facts at sample inputs *)

Lemma github_topRepos_are_the_most_starred_example :
  map (get "stars") (elements "topRepos" (GitHub.realStats octocat three_repos 0))
  = [VNum 12; VNum 5; VNum 0]
  /\ exists top : list gh_repo,
       length top = Nat.min 5 (length three_repos)
       /\ forall r, In r top -> In r three_repos.
Proof.
  split; [reflexivity|].
  destruct (github_topRepos_are_the_most_starred octocat three_repos 0)
    as (top & _ & L & I & _).
  exists top. split; assumption.
Defined.

Lemma github_languages_histogram_instance :
  (length (elements "languages" (GitHub.realStats octocat three_repos 0)) <= 5)%nat.
Proof. exact (proj1 (github_languages_histogram octocat three_repos 0)). Defined.

Lemma github_panel_shows_stats_example :
  exists record,
    fst (GitHub.stats_by_username asciiUpper (lit "octocat") (unreachable_world 0) start)
    = Ok {| status := 200; json := success record |}
    /\ Client.render (fresh_context plain_profile)
         (Client.effect Client.GithubStats (fresh_context plain_profile)
            (fun _ => delivered (fst (GitHub.stats_by_username asciiUpper (lit "octocat")
                                        (unreachable_world 0) start)))
            Client.initial)
       = Client.StatsView record.
Proof.
  destruct (github_panel_shows_stats asciiUpper plain_profile
              {| pb_name := lit "GitHub"; pb_username := lit "octocat" |}
              (fun _ => delivered (fst (GitHub.stats_by_username asciiUpper (lit "octocat")
                                          (unreachable_world 0) start)))
              (unreachable_world 0) start) as (record & E & R & _ & F & _).
  - exists [], [{| pb_name := lit "LeetCode"; pb_username := lit "alice" |}].
    split; [reflexivity|]. split; [reflexivity|]. intros x [].
  - reflexivity.
  - exists record. split; [exact E|]. rewrite (F eq_refl) in R. exact R.
Defined.

Lemma leetcode_panel_outcome_example :
  Client.render (fresh_context plain_profile)
    (Client.effect Client.LeetcodeStats (fresh_context plain_profile)
       (fun _ => delivered (fst (LeetCode.stats_by_username (lit "alice")
                                   (unreachable_world 0) start)))
       Client.initial)
  = Client.ErrorPanel (VStr (lit "Error connecting to LeetCode API")).
Proof.
  apply (leetcode_panel_outcome plain_profile
           {| pb_name := lit "LeetCode"; pb_username := lit "alice" |}
           (fun _ => delivered (fst (LeetCode.stats_by_username (lit "alice")
                                       (unreachable_world 0) start)))
           (unreachable_world 0) start).
  - exists [{| pb_name := lit "GitHub"; pb_username := lit "octocat" |}], [].
    split; [reflexivity|]. split; [reflexivity|].
    intros x [<-|[]]; discriminate.
  - reflexivity.
Defined.

(** For a username LeetCode does not know the panel holds the twelve
    fields that arrive, not the sixteen of the record in the server. *)
Lemma leetcode_panel_unknown_user :
  exists shown,
    Client.render (fresh_context plain_profile)
      (Client.effect Client.LeetcodeStats (fresh_context plain_profile)
         (fun _ => delivered (fst (LeetCode.stats_by_username (lit "alice")
                                     leetcode_world start)))
         Client.initial)
    = Client.StatsView shown
    /\ keys shown = leetcode_defaulted
    /\ length (keys shown) = 12%nat
    /\ length (keys (LeetCode.leetcodeStats nobody)) = 16%nat
    /\ get "username" shown = VUndefined
    /\ get "totalSolved" shown = VNum 0.
Proof.
  eexists. split; [vm_compute; reflexivity|]. repeat split.
Qed.

Lemma panel_without_fetch_example :
  Client.render
    {| Client.cachedStats := VObj [(lit "followers", VNum 3)]; Client.loading := false;
       Client.profile := Some plain_profile |}
    (Client.effect Client.GithubStats
       {| Client.cachedStats := VObj [(lit "followers", VNum 3)]; Client.loading := false;
          Client.profile := Some plain_profile |}
       (fun _ => Rejected DbError) Client.initial)
  = Client.StatsView (VObj [(lit "followers", VNum 3)]).
Proof.
  exact (proj2 (proj1 (panel_without_fetch Client.GithubStats
                         {| Client.cachedStats := VObj [(lit "followers", VNum 3)];
                            Client.loading := false;
                            Client.profile := Some plain_profile |}
                         (fun _ => Rejected DbError) (fun _ => Rejected DbError) eq_refl)
                  eq_refl)).
Defined.

(** A stored profile URL reaches the panel's request as it is, where
    the profile lookup of the server would have reduced it to the
    username. *)
Lemma panel_requests_stored_username :
  Client.errors_logged
    (Client.effect Client.GithubStats (fresh_context octocat_profile)
       (fun url =>
          if jsstring_eqb url (lit "/api/github/stats/https://github.com/octocat/")
          then Rejected (AxiosError (HttpError 404) VUndefined)
          else Fulfilled VNull)
       Client.initial)
  = [AxiosError (HttpError 404) VUndefined]
  /\ GitHub.bound_username (lit "https://github.com/octocat/") = lit "octocat".
Proof. split; reflexivity. Qed.

(** ** The synthesized repositories and the vocabulary *)

Lemma repoNames_NoDup : NoDup GitHub.repoNames.
Proof.
  unfold GitHub.repoNames.
  repeat (constructor;
          [simpl; intros H; repeat (destruct H as [H|H]; [discriminate H|]); exact H|]).
  constructor.
Qed.

Lemma NoDup_firstn {A : Type} (n : nat) (l : list A) : NoDup l -> NoDup (firstn n l).
Proof.
  intros H. rewrite <- (firstn_skipn n l) in H. now apply NoDup_app_remove_r in H.
Qed.

Lemma slice0_NoDup {A : Type} (e : Z) (l : list A) : NoDup l -> NoDup (slice0 e l).
Proof. unfold slice0. destruct (e <? 0); apply NoDup_firstn. Qed.

Lemma repos_at_names (username : jsstring) (names : list jsstring) (times : nat -> Z) :
  map (get "name") (repos_at username names times)
  = map (fun base => VStr (base ++ lit "-" ++ numberToString (random username 1 99))) names.
Proof.
  revert times. induction names as [|n r IH]; intros times; [reflexivity|].
  simpl. f_equal. apply IH.
Qed.

Lemma repos_at_urls (username : jsstring) (names : list jsstring) (times : nat -> Z) :
  map (get "url") (repos_at username names times)
  = map (fun base => VStr (lit "https://github.com/" ++ username ++ lit "/" ++ base)) names.
Proof.
  revert times. induction names as [|n r IH]; intros times; [reflexivity|].
  simpl. f_equal. apply IH.
Qed.

Lemma NoDup_map_injective {A B : Type} (f : A -> B) (l : list A) :
  (forall x y, f x = f y -> x = y) -> NoDup l -> NoDup (map f l).
Proof.
  intros Inj. induction 1 as [|x r Hx Hr IH]; simpl; constructor; [|exact IH].
  intros H. apply in_map_iff in H as (y & E & Hy). apply Inj in E. now subst.
Qed.

Lemma VStr_injective (a b : jsstring) : VStr a = VStr b -> a = b.
Proof. intros H. now injection H. Qed.

(** X23: the repositories of a synthesized record are built from the
    first words of the handler's vocabulary, one each and in its
    order: the name is the word, a hyphen and the common number; the
    url is [https://github.com/<username>/<word>], without the number.
    Names and urls are therefore pairwise distinct. *)
Theorem mock_repos_follow_vocabulary (toUpperCase : jsstring -> jsstring)
    (username : jsstring) (w : world) (s : state) :
  exists record s' count,
    GitHub.mockStats toUpperCase username w s = (Ok record, s')
    /\ (3 <= count <= 8)%nat
    /\ map (get "name") (elements "topRepos" record)
       = map (fun word => VStr (word ++ lit "-" ++ numberToString (random username 1 99)))
           (firstn count GitHub.repoNames)
    /\ map (get "url") (elements "topRepos" record)
       = map (fun word => VStr (lit "https://github.com/" ++ username ++ lit "/" ++ word))
           (firstn count GitHub.repoNames)
    /\ NoDup (map (get "name") (elements "topRepos" record))
    /\ NoDup (map (get "url") (elements "topRepos" record)).
Proof.
  rewrite mockStats_run.
  pose proof (random_in_range username 3 8 topRepos_count_range) as B.
  eexists; eexists; exists (Z.to_nat (random username 3 8)).
  split; [reflexivity|]. split; [lia|].
  rewrite synthesized_topRepos, repos_at_names, repos_at_urls.
  assert (E : slice0 (random username 3 8) GitHub.repoNames
              = firstn (Z.to_nat (random username 3 8)) GitHub.repoNames).
  { unfold slice0. destruct (random username 3 8 <? 0) eqn:N; [|reflexivity].
    apply Z.ltb_lt in N. lia. }
  rewrite E. split; [reflexivity|]. split; [reflexivity|].
  split; apply NoDup_map_injective; try (apply NoDup_firstn, repoNames_NoDup).
  - intros x y H. apply VStr_injective in H. now apply app_inv_tail in H.
  - intros x y H. apply VStr_injective in H.
    now do 3 apply app_inv_head in H.
Qed.

Lemma getByProfile_answers_instance :
  exists r s',
    getByProfile OnLeetCode sample_request (profile_world 0) start = (Ok r, s')
    /\ (status r = 200 \/ status r = 404 \/ status r = 500).
Proof.
  destruct (getByProfile_answers OnLeetCode sample_request (profile_world 0) start)
    as (r & s' & E & S & _).
  exists r, s'. split; assumption.
Defined.

Lemma mock_timestamps_instance :
  exists record s' days,
    GitHub.mockStats asciiUpper (lit "octocat") (unreachable_world 1700000000000) start
    = (Ok record, s')
    /\ 1 <= days <= 90
    /\ ticks s' = S (ticks start + length (elements "topRepos" record)).
Proof.
  destruct (mock_timestamps asciiUpper (lit "octocat") (unreachable_world 1700000000000) start)
    as (record & s' & days & E & D & T & _).
  exists record, s', days. repeat split; assumption || apply D.
Defined.
